(** * afero-dropbox: the file handle of [file.go]

    A shallow embedding of the [File] handle of the Dropbox backend for
    afero: the streaming read path (seek by reopening a range download),
    the pipe-backed write path with its background upload, and the
    cursor-paginated directory listing.

    Conventions.
    - Go's [int64] and [int] are [Z] with the wrap-around written out
      ([wrap64]).
    - A Go function returning [(T, error)] returns a pair whose second
      component is an [option error] ([None] is [nil]).
    - A call that may panic, block for ever on a channel or loop is in
      [exec].
    - The remote client ([f.fs.files]) and the download streams are the
      parameters of [Section Handle]; the remote side is a state of type
      [World] threaded through every call. *)

From Stdlib Require Import ZArith List Ascii String Bool Lia DecimalString.
From Stdlib Require DecimalZ DecimalPos.
From Stdlib.Strings Require Import Byte.
Import ListNotations.

Local Open Scope Z_scope.

(** ** Errors *)

(** The sentinel errors of the package and of the libraries it uses, an
    opaque error of the remote client, and [fmt.Errorf("ctx: %w", cause)]. *)
Inductive error : Type :=
| EOF                                   (* io.EOF *)
| ErrClosedPipe                         (* io.ErrClosedPipe *)
| ErrFileClosed                         (* afero.ErrFileClosed *)
| ErrNotSupported
| ErrAlreadyOpened
| ErrInvalidSeek
| Transport (msg : string)
| Errorf (context : string) (cause : error).

Definition error_eq_dec (a b : error) : {a = b} + {a <> b}.
Proof. decide equality; apply string_dec. Defined.

(** [errors.Is]: the chain of [%w] causes is searched for the target. *)
Fixpoint errors_Is (err target : error) : bool :=
  if error_eq_dec err target then true
  else match err with
       | Errorf _ cause => errors_Is cause target
       | _ => false
       end.

(** Whether an error value ([nil] or not) is or wraps [io.EOF]. *)
Definition errors_Is_opt (err : option error) : bool :=
  match err with
  | Some e => errors_Is e EOF
  | None => false
  end.

(** ** Outcomes of a call *)

Inductive exec (A : Type) : Type :=
| Returns (a : A)
| Panics            (* nil dereference *)
| Blocks            (* blocked for ever on a channel operation *)
| OutOfFuel.        (* the loop bound of the model was reached *)

Arguments Returns {A} a.
Arguments Panics {A}.
Arguments Blocks {A}.
Arguments OutOfFuel {A}.

Definition bind {A B : Type} (m : exec A) (k : A -> exec B) : exec B :=
  match m with
  | Returns a => k a
  | Panics => Panics
  | Blocks => Blocks
  | OutOfFuel => OutOfFuel
  end.

Notation "x <- m ;; k" := (bind m (fun x => k))
  (at level 61, m at next level, right associativity).
Notation "' pat <- m ;; k" := (bind m (fun x => match x with pat => k end))
  (at level 61, pat pattern, m at next level, right associativity).

(** ** Machine integers *)

Definition wrap64 (z : Z) : Z := (z + 2 ^ 63) mod 2 ^ 64 - 2 ^ 63.
Definition add64 (a b : Z) : Z := wrap64 (a + b).
Definition sub64 (a b : Z) : Z := wrap64 (a - b).
Definition in_int64 (z : Z) : Prop := - 2 ^ 63 <= z < 2 ^ 63.

(** [len] of a slice, as an [int]. *)
Definition len {A : Type} (l : list A) : Z := Z.of_nat (List.length l).

(** [io.SeekStart], [io.SeekCurrent], [io.SeekEnd]. *)
Definition SeekStart : Z := 0.
Definition SeekCurrent : Z := 1.
Definition SeekEnd : Z := 2.

Definition dirListingMaxLimit : Z := 2000.
Definition simulatedFileMode : Z := 511. (* 0777 *)

(** ** Remote metadata *)

Record FileMetadata : Type := {
  file_Name : string;
  file_Size : Z;                 (* uint64 *)
  file_ClientModified : Z
}.

Record FolderMetadata : Type := { folder_Name : string }.

(** A [files.IsMetadata] interface value: the nil interface, or a pointer
    (possibly nil) of one of the SDK's metadata types. *)
Inductive IsMetadata : Type :=
| NilMetadata
| FileMeta (p : option FileMetadata)
| FolderMeta (p : option FolderMetadata)
| DeletedMeta (name : string).

Record FileInfo : Type := { meta : IsMetadata }.

Definition newFileInfo (m : IsMetadata) : FileInfo := {| meta := m |}.

Module FileInfoM.

Definition Name (f : FileInfo) : exec string :=
  match meta f with
  | FileMeta (Some file) => Returns (file_Name file)
  | FileMeta None => Panics
  | FolderMeta (Some folder) => Returns (folder_Name folder)
  | FolderMeta None => Panics
  | _ => Returns ""%string
  end.

Definition Size (f : FileInfo) : exec Z :=
  match meta f with
  | FileMeta (Some file) => Returns (wrap64 (file_Size file))
  | FileMeta None => Panics
  | _ => Returns 0
  end.

Definition Mode (f : FileInfo) : Z := simulatedFileMode.

Definition ModTime (f : FileInfo) : exec Z :=
  match meta f with
  | FileMeta (Some file) => Returns (file_ClientModified file)
  | FileMeta None => Panics
  | _ => Returns 0
  end.

Definition IsDir (f : FileInfo) : bool :=
  match meta f with
  | FolderMeta _ => true
  | _ => false
  end.

Definition Sys (f : FileInfo) : IsMetadata := meta f.

End FileInfoM.

(** ** Requests and responses of the remote client *)

Record ListFolderArg : Type := { lf_Path : string; lf_Limit : Z }.
Record ListFolderContinueArg : Type := { lfc_Cursor : string }.
Record ListFolderResult : Type := {
  Entries : list IsMetadata;
  Cursor : string;
  HasMore : bool
}.
Record DownloadArg : Type := {
  dl_Path : string;
  dl_ExtraHeaders : list (string * string)
}.
Record CommitInfo : Type := {
  ci_Path : string;
  ci_Mode : string;
  ci_Autorename : bool
}.

(** [fmt.Sprintf("bytes=%d-", startAt)] *)
Definition rangeHeader (startAt : Z) : string :=
  ("bytes=" ++ NilZero.string_of_int (Z.to_int startAt) ++ "-")%string.

(** The request of [openReadStream]: the [Range] header is set only for a
    positive start. *)
Definition downloadRequest (path : string) (startAt : Z) : DownloadArg :=
  {| dl_Path := path;
     dl_ExtraHeaders :=
       if 0 <? startAt then [("Range"%string, rangeHeader startAt)]
       else [] |}.

(** The producer side of the [io.Pipe] of a write stream together with the
    bytes handed to the consumer so far.  A write on a pipe whose write
    side was closed fails with [io.ErrClosedPipe]; closing never fails. *)
Record Pipe : Type := { pipeData : list byte; pipeClosed : bool }.

Definition newPipe : Pipe := {| pipeData := []; pipeClosed := false |}.

Definition pipe_Write (w : Pipe) (p : list byte) : (Z * option error) * Pipe :=
  if pipeClosed w then ((0, Some ErrClosedPipe), w)
  else ((len p, None), {| pipeData := pipeData w ++ p; pipeClosed := false |}).

Definition pipe_Close (w : Pipe) : option error * Pipe :=
  (None, {| pipeData := pipeData w; pipeClosed := true |}).

(** The unbuffered channel [streamWriteCloseErr]: open with the value a
    blocked sender offers (if any), or closed. *)
Inductive errChan : Type :=
| ChanOpen (offered : option (option error))
| ChanClosed.

Record Fs : Type := { dirListLimit : Z }.

(** ** The file handle *)

Record File (Stream : Type) : Type := {
  fs : Fs;
  name : string;
  streamWrite : option Pipe;
  streamRead : option Stream;
  streamWriteCloseErr : option errChan;
  streamWriteErr : option error;
  dirList : option (list FileInfo);     (* buffered channel, nil or queue *)
  dirListCursor : string;
  dirListDone : bool;
  streamReadOffset : Z;
  cachedInfo : option FileInfo
}.

Arguments fs {Stream} f.
Arguments name {Stream} f.
Arguments streamWrite {Stream} f.
Arguments streamRead {Stream} f.
Arguments streamWriteCloseErr {Stream} f.
Arguments streamWriteErr {Stream} f.
Arguments dirList {Stream} f.
Arguments dirListCursor {Stream} f.
Arguments dirListDone {Stream} f.
Arguments streamReadOffset {Stream} f.
Arguments cachedInfo {Stream} f.


Definition set_streamWrite {Stream : Type} (v : option Pipe) (f : File Stream) : File Stream :=
  {| fs := fs f; name := name f; streamWrite := v;
     streamRead := streamRead f;
     streamWriteCloseErr := streamWriteCloseErr f;
     streamWriteErr := streamWriteErr f; dirList := dirList f;
     dirListCursor := dirListCursor f; dirListDone := dirListDone f;
     streamReadOffset := streamReadOffset f; cachedInfo := cachedInfo f |}.

Definition set_streamRead {Stream : Type} (v : option Stream) (f : File Stream) : File Stream :=
  {| fs := fs f; name := name f; streamWrite := streamWrite f;
     streamRead := v;
     streamWriteCloseErr := streamWriteCloseErr f;
     streamWriteErr := streamWriteErr f; dirList := dirList f;
     dirListCursor := dirListCursor f; dirListDone := dirListDone f;
     streamReadOffset := streamReadOffset f; cachedInfo := cachedInfo f |}.

Definition set_streamWriteCloseErr {Stream : Type} (v : option errChan) (f : File Stream) : File Stream :=
  {| fs := fs f; name := name f; streamWrite := streamWrite f;
     streamRead := streamRead f;
     streamWriteCloseErr := v;
     streamWriteErr := streamWriteErr f; dirList := dirList f;
     dirListCursor := dirListCursor f; dirListDone := dirListDone f;
     streamReadOffset := streamReadOffset f; cachedInfo := cachedInfo f |}.

Definition set_streamWriteErr {Stream : Type} (v : option error) (f : File Stream) : File Stream :=
  {| fs := fs f; name := name f; streamWrite := streamWrite f;
     streamRead := streamRead f;
     streamWriteCloseErr := streamWriteCloseErr f;
     streamWriteErr := v; dirList := dirList f;
     dirListCursor := dirListCursor f; dirListDone := dirListDone f;
     streamReadOffset := streamReadOffset f; cachedInfo := cachedInfo f |}.

Definition set_dirList {Stream : Type} (v : option (list FileInfo)) (f : File Stream) : File Stream :=
  {| fs := fs f; name := name f; streamWrite := streamWrite f;
     streamRead := streamRead f;
     streamWriteCloseErr := streamWriteCloseErr f;
     streamWriteErr := streamWriteErr f; dirList := v;
     dirListCursor := dirListCursor f; dirListDone := dirListDone f;
     streamReadOffset := streamReadOffset f; cachedInfo := cachedInfo f |}.

Definition set_dirListCursor {Stream : Type} (v : string) (f : File Stream) : File Stream :=
  {| fs := fs f; name := name f; streamWrite := streamWrite f;
     streamRead := streamRead f;
     streamWriteCloseErr := streamWriteCloseErr f;
     streamWriteErr := streamWriteErr f; dirList := dirList f;
     dirListCursor := v; dirListDone := dirListDone f;
     streamReadOffset := streamReadOffset f; cachedInfo := cachedInfo f |}.

Definition set_dirListDone {Stream : Type} (v : bool) (f : File Stream) : File Stream :=
  {| fs := fs f; name := name f; streamWrite := streamWrite f;
     streamRead := streamRead f;
     streamWriteCloseErr := streamWriteCloseErr f;
     streamWriteErr := streamWriteErr f; dirList := dirList f;
     dirListCursor := dirListCursor f; dirListDone := v;
     streamReadOffset := streamReadOffset f; cachedInfo := cachedInfo f |}.

Definition set_streamReadOffset {Stream : Type} (v : Z) (f : File Stream) : File Stream :=
  {| fs := fs f; name := name f; streamWrite := streamWrite f;
     streamRead := streamRead f;
     streamWriteCloseErr := streamWriteCloseErr f;
     streamWriteErr := streamWriteErr f; dirList := dirList f;
     dirListCursor := dirListCursor f; dirListDone := dirListDone f;
     streamReadOffset := v; cachedInfo := cachedInfo f |}.

Definition set_cachedInfo {Stream : Type} (v : option FileInfo) (f : File Stream) : File Stream :=
  {| fs := fs f; name := name f; streamWrite := streamWrite f;
     streamRead := streamRead f;
     streamWriteCloseErr := streamWriteCloseErr f;
     streamWriteErr := streamWriteErr f; dirList := dirList f;
     dirListCursor := dirListCursor f; dirListDone := dirListDone f;
     streamReadOffset := streamReadOffset f; cachedInfo := v |}.

Definition newFile {Stream : Type} (fs0 : Fs) (name0 : string) : File Stream :=
  {| fs := fs0; name := name0; streamWrite := None; streamRead := None;
     streamWriteCloseErr := Some (ChanOpen None);
     streamWriteErr := None; dirList := None;
     dirListCursor := ""%string; dirListDone := false;
     streamReadOffset := 0; cachedInfo := None |}.

(** ** An in-memory remote

    A concrete remote side, used to run the handle on examples: objects
    are byte strings, a folder listing is a fixed list of pages, an upload
    fails when [uploadError] is set, and every download request is
    logged. *)

Module Mem.

Record Stream : Type := {
  rest : list byte;
  eofWithData : bool;        (* the last bytes come together with EOF *)
  closed : bool
}.

Record World : Type := {
  objects : list (string * list byte);
  pages : list ListFolderResult;
  uploadError : option error;
  eagerEOF : bool;
  downloads : list DownloadArg          (* oldest first *)
}.

Definition stream_Read (s : Stream) (p : list byte)
  : (list byte * Z * option error) * Stream :=
  if closed s then ((p, 0, Some (Transport "read on closed body")), s)
  else
    let k := Nat.min (List.length p) (List.length (rest s)) in
    let p' := firstn k (rest s) ++ skipn k p in
    let s' := {| rest := skipn k (rest s); eofWithData := eofWithData s;
                 closed := false |} in
    match rest s' with
    | [] =>
        if (k =? 0)%nat || eofWithData s
        then ((p', Z.of_nat k, Some EOF), s')
        else ((p', Z.of_nat k, None), s')
    | _ :: _ => ((p', Z.of_nat k, None), s')
    end.

Definition stream_Close (s : Stream) : option error * Stream :=
  (None, {| rest := rest s; eofWithData := eofWithData s; closed := true |}).

Fixpoint lookup (path : string) (objs : list (string * list byte))
  : option (list byte) :=
  match objs with
  | [] => None
  | (k, v) :: objs => if String.eqb k path then Some v else lookup path objs
  end.

Definition parseRange (v : string) : option Z :=
  match NilZero.int_of_string (substring 6 (String.length v - 7) v) with
  | Some i => Some (Z.of_int i)
  | None => None
  end.

Definition logDownload (req : DownloadArg) (w : World) : World :=
  {| objects := objects w; pages := pages w; uploadError := uploadError w;
     eagerEOF := eagerEOF w; downloads := downloads w ++ [req] |}.

Definition Download (req : DownloadArg) (w : World)
  : (option Stream * option error) * World :=
  let start :=
    match dl_ExtraHeaders req with
    | [] => Some 0
    | (_, v) :: _ => parseRange v
    end in
  match lookup (dl_Path req) (objects w), start with
  | Some data, Some z =>
      ((Some {| rest := skipn (Z.to_nat z) data; eofWithData := eagerEOF w;
                closed := false |}, None), logDownload req w)
  | _, _ => ((None, Some (Transport "path/not_found")), logDownload req w)
  end.

Definition ListFolder (arg : ListFolderArg) (w : World)
  : (ListFolderResult + error) * World :=
  match pages w with
  | [] => (inr (Transport "path/not_found"), w)
  | r :: _ => (inl r, w)
  end.

Fixpoint nextPage (cursor : string) (ps : list ListFolderResult)
  : option ListFolderResult :=
  match ps with
  | r :: (r' :: _) as ps' =>
      if String.eqb (Cursor r) cursor then Some r' else nextPage cursor ps'
  | _ => None
  end.

Definition ListFolderContinue (arg : ListFolderContinueArg) (w : World)
  : (ListFolderResult + error) * World :=
  match nextPage (lfc_Cursor arg) (pages w) with
  | Some r => (inl r, w)
  | None => (inr (Transport "reset"), w)
  end.

Definition Upload (req : CommitInfo) (data : list byte) (w : World)
  : (option FileMetadata * option error) * World :=
  match uploadError w with
  | Some e => ((None, Some e), w)
  | None =>
      ((Some {| file_Name := ci_Path req; file_Size := len data;
                file_ClientModified := 0 |}, None),
       {| objects := (ci_Path req, data) :: objects w; pages := pages w;
          uploadError := None; eagerEOF := eagerEOF w;
          downloads := downloads w |})
  end.

Definition fs_stat (path : string) (w : World)
  : (option FileInfo * option error) * World :=
  match lookup path (objects w) with
  | Some data =>
      ((Some (newFileInfo
                (FileMeta (Some {| file_Name := path; file_Size := len data;
                                   file_ClientModified := 0 |}))), None), w)
  | None => ((None, Some (Transport "path/not_found")), w)
  end.

(** Sample data. *)

Definition alphabet : list byte :=
  list_byte_of_string "abcdefghijklmnopqrstuvwxyz".

Definition entry (n : string) : IsMetadata :=
  FileMeta (Some {| file_Name := n; file_Size := 1;
                    file_ClientModified := 0 |}).

Definition threePages : list ListFolderResult :=
  [ {| Entries := [entry "a"; entry "b"]; Cursor := "c1"; HasMore := true |};
    {| Entries := []; Cursor := "c2"; HasMore := true |};
    {| Entries := [entry "c"; FolderMeta (Some {| folder_Name := "d" |});
                   entry "e"];
       Cursor := "c3"; HasMore := false |} ].

Definition world : World :=
  {| objects := [("/letters"%string, alphabet)]; pages := threePages;
     uploadError := None; eagerEOF := false; downloads := [] |}.

Definition failing (e : error) : World :=
  {| objects := objects world; pages := pages world; uploadError := Some e;
     eagerEOF := false; downloads := [] |}.

Definition eager : World :=
  {| objects := objects world; pages := pages world; uploadError := None;
     eagerEOF := true; downloads := [] |}.

Definition drive : Fs := {| dirListLimit := 0 |}.

(** The body of a download of ["/letters"] from byte [at_]. *)
Definition body (at_ : Z) (eof : bool) : Stream :=
  {| rest := skipn (Z.to_nat at_) alphabet; eofWithData := eof;
     closed := false |}.

Definition closedBody (at_ : Z) (eof : bool) : Stream :=
  snd (stream_Close (body at_ eof)).

Definition lettersInfo : FileInfo :=
  newFileInfo (FileMeta (Some {| file_Name := "/letters"; file_Size := 26;
                                 file_ClientModified := 0 |})).

(** A handle on ["/letters"] reading at byte [at_], with its metadata
    cached. *)
Definition reader (at_ : Z) (eof : bool) : File Stream :=
  {| fs := drive; name := "/letters"; streamWrite := None;
     streamRead := Some (body at_ eof);
     streamWriteCloseErr := Some (ChanOpen None); streamWriteErr := None;
     dirList := None; dirListCursor := ""; dirListDone := false;
     streamReadOffset := at_;
     cachedInfo := Some lettersInfo |}.

(** A handle on ["/new"] with a write stream just opened. *)
Definition writer : File Stream :=
  set_streamWrite (Some newPipe) (newFile drive "/new").

Definition buffer (n : nat) : list byte := repeat x00 n.

(** A remote side without objects and listings. *)
Definition empty : World :=
  {| objects := []; pages := []; uploadError := None; eagerEOF := false;
     downloads := [] |}.

(** A listing whose only page has one entry more than the channel has
    places. *)
Definition bigPage : ListFolderResult :=
  {| Entries := repeat (entry "x") 2001; Cursor := "c1"; HasMore := false |}.

Definition bigWorld : World :=
  {| objects := []; pages := [bigPage]; uploadError := None;
     eagerEOF := false; downloads := [] |}.

(** A listing that breaks off after a first page that announces more. *)
Definition firstPage : ListFolderResult :=
  {| Entries := [entry "a"; entry "b"]; Cursor := "c1"; HasMore := true |}.

Definition truncated : World :=
  {| objects := []; pages := [firstPage]; uploadError := None;
     eagerEOF := false; downloads := [] |}.

(** A directory handle after the last page: the done flag is set and one
    entry is still in the channel. *)
Definition leftover : File Stream :=
  set_dirListDone true
    (set_dirListCursor "c3"
       (set_dirList (Some [newFileInfo (entry "e")]) (newFile drive "/"))).

(** A stream whose closing fails, and a listing that never ends. *)
Definition failingClose (s : Stream) : option error * Stream :=
  (Some (Transport "reset"), s).

Definition endless {A : Type} (arg : A) (w : World)
  : (ListFolderResult + error) * World :=
  (inl {| Entries := []; Cursor := "c"; HasMore := true |}, w).

(** The allocation of a slice of 16-byte elements succeeds up to the
    bound of the runtime on a 64-bit platform. *)
Definition sliceAllocates (cap : Z) : bool := cap <=? 2 ^ 44.

(** A listing whose entries carry paths. *)
Definition pathPage : ListFolderResult :=
  {| Entries := [entry "/docs/a.txt"; entry "b";
                 FolderMeta (Some {| folder_Name := "/docs/sub/" |});
                 entry "/c"];
     Cursor := "c1"; HasMore := false |}.

Definition pathWorld : World :=
  {| objects := []; pages := [pathPage]; uploadError := None;
     eagerEOF := false; downloads := [] |}.

End Mem.

(** ** [path.Split]

    [Readdirnames] keeps the second result of [path.Split]:
    [i := strings.LastIndex(path, "/"); return path[:i+1], path[i+1:]]. *)

Fixpoint lastIndexSlash (s : string) : Z :=
  match s with
  | EmptyString => -1
  | String c s' =>
      let i := lastIndexSlash s' in
      if 0 <=? i then i + 1
      else if Ascii.eqb c "/"%char then 0 else -1
  end.

Definition path_Split (path : string) : string * string :=
  let i := lastIndexSlash path in
  (substring 0 (Z.to_nat (i + 1)) path,
   substring (Z.to_nat (i + 1)) (String.length path - Z.to_nat (i + 1)) path).

(** Whether a string holds the byte ['/']. *)
Fixpoint hasSlash (s : string) : bool :=
  match s with
  | EmptyString => false
  | String c s' => Ascii.eqb c "/"%char || hasSlash s'
  end.

(** [nm] is the part of [full] after its last slash: [full] is [dir]
    followed by [nm], [nm] holds no slash, and [dir] is empty or ends with
    a slash. *)
Definition isBaseName (full nm : string) : Prop :=
  exists dir,
    full = (dir ++ nm)%string /\
    hasSlash nm = false /\
    (dir = ""%string \/ exists d, dir = (d ++ "/")%string).

(** ** Operations of the handle *)

Section Handle.

(** The remote side and a download stream ([io.ReadCloser]). *)
Variable World : Type.
Variable Stream : Type.

(** [Read(p)] on a stream gives the buffer after the call, the count and
    the error; [Close()] gives the error. *)
Variable stream_Read :
  Stream -> list byte -> (list byte * Z * option error) * Stream.
Variable stream_Close : Stream -> option error * Stream.

(** The operations of [f.fs.files] and [f.fs.stat]. *)
Variable ListFolder :
  ListFolderArg -> World -> (ListFolderResult + error) * World.
Variable ListFolderContinue :
  ListFolderContinueArg -> World -> (ListFolderResult + error) * World.
Variable Download :
  DownloadArg -> World -> (option Stream * option error) * World.
(** [Upload(req, reader)]: the result depends on the request, on the
    bytes the reader delivered and on the remote side. *)
Variable Upload :
  CommitInfo -> list byte -> World ->
  (option FileMetadata * option error) * World.
Variable fs_stat :
  string -> World -> (option FileInfo * option error) * World.
(** The Go runtime: whether [make([]os.FileInfo, 0, cap)] gets its memory.
    [makeslice] panics for a capacity beyond the runtime's limit, and the
    program dies when the memory is not there. *)
Variable sliceAllocates : Z -> bool.

(** *** Reading and seeking *)

Definition Read (p : list byte) (f : File Stream)
  : exec ((list byte * Z * option error) * File Stream) :=
  match streamRead f with
  | None => Panics
  | Some s =>
      let '((p', n, err), s') := stream_Read s p in
      let f := set_streamRead (Some s') f in
      match err with
      | Some e =>
          if errors_Is e EOF then Returns ((p', n, Some EOF), f)
          else Returns
                 ((p', 0, Some (Errorf "couldn't read from stream" e)), f)
      | None =>
          Returns ((p', n, None),
                   set_streamReadOffset (add64 (streamReadOffset f) n) f)
      end
  end.

Definition openReadStream (startAt : Z) (f : File Stream) (w : World)
  : option error * File Stream * World :=
  let f := set_streamReadOffset startAt f in
  let req := downloadRequest (name f) startAt in
  let '((content, err), w) := Download req w in
  let f := set_streamRead content f in
  match err with
  | Some e => (Some (Errorf "couldn't download file" e), f, w)
  | None => (None, f, w)
  end.

(** The target byte of a seek: the [switch] of [seekRead]. *)
Definition seekTarget (offset whence : Z) (f : File Stream) : exec Z :=
  if whence =? SeekStart then Returns offset
  else if whence =? SeekCurrent then
    Returns (add64 (streamReadOffset f) offset)
  else if whence =? SeekEnd then
    match cachedInfo f with
    | None => Panics
    | Some fi => size <- FileInfoM.Size fi ;; Returns (sub64 size offset)
    end
  else Returns 0.

Definition seekRead (offset whence : Z) (f : File Stream) (w : World)
  : exec ((Z * option error) * File Stream * World) :=
  startByte <- seekTarget offset whence f ;;
  match streamRead f with
  | None => Panics
  | Some s =>
      let '(err, s') := stream_Close s in
      match err with
      | Some e =>
          Returns ((0, Some (Errorf "couldn't close previous stream" e)),
                   set_streamRead (Some s') f, w)
      | None =>
          let f := set_streamRead None f in
          if startByte <? 0 then
            Returns ((startByte, Some ErrInvalidSeek), f, w)
          else
            let '(err, f, w) := openReadStream startByte f w in
            Returns ((startByte, err), f, w)
      end
  end.

Definition Seek (offset whence : Z) (f : File Stream) (w : World)
  : exec ((Z * option error) * File Stream * World) :=
  match streamWrite f with
  | Some _ => Returns ((0, Some ErrNotSupported), f, w)
  | None =>
      match streamRead f with
      | Some _ => seekRead offset whence f w
      | None => Returns ((0, Some ErrFileClosed), f, w)
      end
  end.

Definition ReadAt (p : list byte) (off : Z) (f : File Stream) (w : World)
  : exec ((list byte * Z * option error) * File Stream * World) :=
  '((_, err), f, w) <- Seek off SeekCurrent f w ;;
  match err with
  | Some e => Returns ((p, 0, Some e), f, w)
  | None => '(r, f) <- Read p f ;; Returns (r, f, w)
  end.

(** *** Writing *)

Definition Write (p : list byte) (f : File Stream)
  : exec ((Z * option error) * File Stream) :=
  match streamWrite f with
  | None => Panics
  | Some pw =>
      let '(r, pw') := pipe_Write pw p in
      Returns (r, set_streamWrite (Some pw') f)
  end.

Definition WriteAt (p : list byte) (off : Z) (f : File Stream) (w : World)
  : exec ((Z * option error) * File Stream * World) :=
  '((_, err), f, w) <- Seek off SeekCurrent f w ;;
  match err with
  | Some e => Returns ((0, Some e), f, w)
  | None => '(r, f) <- Write p f ;; Returns (r, f, w)
  end.

Definition Name (f : File Stream) : string := name f.

Definition Sync (f : File Stream) : option error := None.

Definition Truncate (size : Z) (f : File Stream) : option error :=
  Some ErrNotSupported.

Definition Stat (f : File Stream) (w : World)
  : (option FileInfo * option error) * File Stream * World :=
  match cachedInfo f with
  | None =>
      let '((fi, err), w) := fs_stat (name f) w in
      ((fi, err), set_cachedInfo fi f, w)
  | Some fi => ((Some fi, None), f, w)
  end.

(** *** The write stream and its background upload *)

(** [openWriteStream] up to the [go] statement.  The boolean tells whether
    a background task was started. *)
Definition openWriteStream (f : File Stream)
  : option error * File Stream * bool :=
  match streamWrite f with
  | Some _ => (Some ErrAlreadyOpened, f, false)
  | None =>
      let f := set_cachedInfo None f in
      let f := set_streamWriteCloseErr (Some (ChanOpen None)) f in
      let f := set_streamWrite (Some newPipe) f in
      (None, f, true)
  end.

(** The body of the background task of [openWriteStream], run from the
    return of [Upload] to the moment its send on [streamWriteCloseErr] is
    offered.  [Upload] has read the bytes written to the pipe so far. *)
Definition uploadTask (f : File Stream) (w : World)
  : exec (File Stream * World) :=
  let req :=
    {| ci_Path := name f; ci_Mode := "overwrite"%string;
       ci_Autorename := false |} in
  match streamWrite f with
  | None => Panics      (* not reached: [Close] waits for the task *)
  | Some pw =>
      let '((m, err), w) := Upload req (pipeData pw) w in
      let f :=
        match err with
        | Some e =>
            let f := set_streamWriteErr (Some e) f in
            set_streamWrite (Some (snd (pipe_Close pw))) f
        | None => f
        end in
      let f := set_cachedInfo (Some (newFileInfo (FileMeta m))) f in
      match streamWriteCloseErr f with
      | None => Blocks
      | Some ChanClosed => Panics
      | Some (ChanOpen (Some _)) => Blocks
      | Some (ChanOpen None) =>
          Returns (set_streamWriteCloseErr (Some (ChanOpen (Some err))) f, w)
      end
  end.

(** [Close].  [running] tells whether the background task is still inside
    [Upload]; the receive on [streamWriteCloseErr] then waits for it, the
    write side of the pipe being closed. *)
Definition Close (f : File Stream) (running : bool) (w : World)
  : exec (option error * File Stream * bool * World) :=
  match streamRead f with
  | Some s =>
      let '(err, _) := stream_Close s in
      Returns (err, set_streamRead None f, running, w)
  | None =>
      match streamWrite f with
      | Some pw =>
          let deferred (f : File Stream) :=
            set_streamWriteCloseErr None (set_streamWrite None f) in
          let '(cerr, pw') := pipe_Close pw in
          let f := set_streamWrite (Some pw') f in
          match cerr with
          | Some e =>
              Returns (Some (Errorf "problem writing file" e),
                       deferred f, running, w)
          | None =>
              '(f, w) <- (if running then uploadTask f w
                          else Returns (f, w)) ;;
              match streamWriteCloseErr f with
              | None => Blocks
              | Some ChanClosed => Panics
              | Some (ChanOpen None) => Blocks
              | Some (ChanOpen (Some err)) =>
                  let f := set_streamWriteCloseErr (Some ChanClosed) f in
                  Returns (err, deferred f, false, w)
              end
          end
      | None => Returns (None, f, running, w)
      end
  end.

(** What happens between the opening of a write stream and [Close]: the
    caller writes, and the background task may leave [Upload] early. *)
Inductive writeEvent : Type :=
| CallWrite (p : list byte)
| UploadReturns.

Definition writeStep (ev : writeEvent) (st : File Stream * bool * World)
  : exec (File Stream * bool * World) :=
  let '(f, running, w) := st in
  match ev with
  | CallWrite p => '(_, f) <- Write p f ;; Returns (f, running, w)
  | UploadReturns =>
      if running then '(f, w) <- uploadTask f w ;; Returns (f, false, w)
      else Returns (f, running, w)
  end.

Fixpoint writeSteps (evs : list writeEvent) (st : File Stream * bool * World)
  : exec (File Stream * bool * World) :=
  match evs with
  | [] => Returns st
  | ev :: evs => st <- writeStep ev st ;; writeSteps evs st
  end.

(** A whole write session: open, the events, [Close].  The results are the
    error of [Close], the handle and the remote side. *)
Definition writeSession (evs : list writeEvent) (f : File Stream) (w : World)
  : exec (option error * File Stream * World) :=
  let '(oerr, f, running) := openWriteStream f in
  match oerr with
  | Some e => Returns (Some e, f, w)
  | None =>
      '(f, running, w) <- writeSteps evs (f, running, w) ;;
      '(err, f, _, w) <- Close f running w ;;
      Returns (err, f, w)
  end.

(** *** Directory listing *)

Definition chanLen (q : option (list FileInfo)) : Z :=
  match q with
  | None => 0
  | Some l => len l
  end.

(** [f.dirList <- x] on the channel of capacity [dirListingMaxLimit]. *)
Definition chanSend (q : option (list FileInfo)) (x : FileInfo)
  : exec (option (list FileInfo)) :=
  match q with
  | None => Blocks
  | Some l =>
      if len l <? dirListingMaxLimit then Returns (Some (l ++ [x]))
      else Blocks
  end.

Fixpoint sendAll (ms : list IsMetadata) (q : option (list FileInfo))
  : exec (option (list FileInfo)) :=
  match ms with
  | [] => Returns q
  | m :: ms => q <- chanSend q (newFileInfo m) ;; sendAll ms q
  end.

Fixpoint readDirAll_loop (fuel : nat) (path : string) (fis : list FileInfo)
  (dirListCursor : string) (w : World)
  : exec ((list FileInfo * option error) * World) :=
  match fuel with
  | O => OutOfFuel
  | S fuel =>
      let '(r, w) :=
        if (String.length dirListCursor =? 0)%nat then
          ListFolder {| lf_Path := path; lf_Limit := 0 |} w
        else
          ListFolderContinue {| lfc_Cursor := dirListCursor |} w in
      match r with
      | inr err => Returns (([], Some err), w)
      | inl resp =>
          let fis := fis ++ map newFileInfo (Entries resp) in
          if negb (HasMore resp) then Returns ((fis, None), w)
          else readDirAll_loop fuel path fis (Cursor resp) w
      end
  end.

Definition _readDirAll (fuel : nat) (f : File Stream) (w : World)
  : exec ((list FileInfo * option error) * World) :=
  readDirAll_loop fuel (name f) [] ""%string w.

Definition _readDir (f : File Stream) (w : World)
  : exec (option error * File Stream * World) :=
  let '(f, (r, w)) :=
    if String.eqb (dirListCursor f) "" then
      let f := set_dirList (Some []) f in
      let limit :=
        if dirListLimit (fs f) =? 0 then 0
        else dirListLimit (fs f) mod 2 ^ 32 in
      (f, ListFolder {| lf_Path := name f; lf_Limit := limit |} w)
    else
      (f, ListFolderContinue {| lfc_Cursor := dirListCursor f |} w) in
  match r with
  | inr err => Returns (Some (Errorf "couldn't fetch files list" err), f, w)
  | inl res =>
      let f := set_dirListCursor (Cursor res) f in
      let f := set_dirListDone (negb (HasMore res)) f in
      q <- sendAll (Entries res) (dirList f) ;;
      Returns (None, set_dirList q f, w)
  end.

(** The inner loop of [Readdir]: entries move from the channel to [lst] (the
    source's [list]) while it is short of [count] and the channel is not empty. *)
Fixpoint drain (count : Z) (lst queue : list FileInfo)
  : list FileInfo * list FileInfo :=
  match queue with
  | [] => (lst, [])
  | x :: queue' =>
      if len lst <? count then drain count (lst ++ [x]) queue'
      else (lst, queue)
  end.

Definition drainChan (count : Z) (lst : list FileInfo) (f : File Stream)
  : list FileInfo * File Stream :=
  match dirList f with
  | None => (lst, f)
  | Some queue =>
      let '(lst, queue) := drain count lst queue in
      (lst, set_dirList (Some queue) f)
  end.

Fixpoint Readdir_loop (fuel : nat) (count : Z) (lst : list FileInfo)
  (f : File Stream) (w : World)
  : exec ((list FileInfo * option error) * File Stream * World) :=
  match fuel with
  | O => OutOfFuel
  | S fuel =>
      if (len lst <? count) && negb (dirListDone f) then
        '(err, f, w) <- (if chanLen (dirList f) =? 0 then _readDir f w
                         else Returns (None, f, w)) ;;
        match err with
        | Some e => Returns (([], Some e), f, w)
        | None =>
            let '(lst, f) := drainChan count lst f in
            Readdir_loop fuel count lst f w
        end
      else Returns ((lst, None), f, w)
  end.

(** [make([]os.FileInfo, 0, count)] *)
Definition makeFileInfos (cap : Z) : exec (list FileInfo) :=
  if (0 <=? cap) && sliceAllocates cap then Returns [] else Panics.

Definition Readdir (fuel : nat) (count : Z) (f : File Stream) (w : World)
  : exec ((list FileInfo * option error) * File Stream * World) :=
  if count <=? 0 then
    '(r, w) <- _readDirAll fuel f w ;; Returns (r, f, w)
  else
    lst <- makeFileInfos count ;;
    Readdir_loop fuel count lst f w.


(** *** Names, strings *)

Definition WriteString (s : string) (f : File Stream)
  : exec ((Z * option error) * File Stream) :=
  Write (list_byte_of_string s) f.

(** The loop of [Readdirnames] over the entries [Readdir] returned. *)
Fixpoint baseNames (fi : list FileInfo) : exec (list string) :=
  match fi with
  | [] => Returns []
  | x :: fi =>
      nm <- FileInfoM.Name x ;;
      names <- baseNames fi ;;
      Returns (snd (path_Split nm) :: names)
  end.

Definition Readdirnames (fuel : nat) (n : Z) (f : File Stream) (w : World)
  : exec ((list string * option error) * File Stream * World) :=
  '((fi, err), f, w) <- Readdir fuel n f w ;;
  match err with
  | Some e => Returns (([], Some e), f, w)
  | None => names <- baseNames fi ;; Returns ((names, None), f, w)
  end.

(** *** Sequences of calls *)

(** Successive [Read] calls with the given buffers; the result is the
    number of bytes returned with a nil error. *)
Fixpoint readCalls (ps : list (list byte)) (f : File Stream)
  : exec (Z * File Stream) :=
  match ps with
  | [] => Returns (0, f)
  | p :: ps =>
      '((_, n, err), f) <- Read p f ;;
      '(total, f) <- readCalls ps f ;;
      Returns ((match err with None => n | Some _ => 0 end) + total, f)
  end.

(** The bytes the caller wrote before the background task left
    [Upload]. *)
Fixpoint writtenBeforeReturn (evs : list writeEvent) : list byte :=
  match evs with
  | [] => []
  | CallWrite p :: evs => p ++ writtenBeforeReturn evs
  | UploadReturns :: _ => []
  end.

(** The entries waiting in the channel [dirList]. *)
Definition chanQueue (q : option (list FileInfo)) : list FileInfo :=
  match q with
  | None => []
  | Some l => l
  end.

(** The request of the background upload. *)
Definition uploadRequest (path : string) : CommitInfo :=
  {| ci_Path := path; ci_Mode := "overwrite"%string;
     ci_Autorename := false |}.

(** ** Predicates used in the statements *)

(** The state of a write session between the opening and [Close], when
    the upload fails with [e]: the handle has a write stream and no read
    stream; while the task is in [Upload] nothing is offered on the channel
    and the remote side is still [w0]; afterwards [e] is offered and the
    cache holds the result of the upload. *)
Definition sessionInv (e : error) (w0 : World)
  (st : File Stream * bool * World) : Prop :=
  let '(f, running, w) := st in
  streamRead f = None /\
  (exists pw, streamWrite f = Some pw) /\
  if running then streamWriteCloseErr f = Some (ChanOpen None) /\ w = w0
  else streamWriteCloseErr f = Some (ChanOpen (Some (Some e))) /\
       exists m, cachedInfo f = Some (newFileInfo (FileMeta m)).

(** The pages of a listing as the interface describes them: the initial
    listing call once, then the continuation call with the cursor of each
    page that announces more, up to a page that does not. *)
Inductive continuePages
  : ListFolderResult -> World -> list ListFolderResult -> World -> Prop :=
| continue_stop (r : ListFolderResult) (w : World) :
    HasMore r = false -> continuePages r w [] w
| continue_next (r r' : ListFolderResult) (w w' w'' : World)
    (rest : list ListFolderResult) :
    HasMore r = true ->
    ListFolderContinue {| lfc_Cursor := Cursor r |} w = (inl r', w') ->
    continuePages r' w' rest w'' ->
    continuePages r w (r' :: rest) w''.

Definition listingPages (path : string) (w : World)
  (pages : list ListFolderResult) (w' : World) : Prop :=
  exists r0 w0 rest,
    ListFolder {| lf_Path := path; lf_Limit := 0 |} w = (inl r0, w0) /\
    continuePages r0 w0 rest w' /\
    pages = r0 :: rest.

(** A page that announces more carries a cursor (the empty cursor stands
    for the start of a listing). *)
Definition cursorIssued (r : ListFolderResult) : Prop :=
  HasMore r = true -> Cursor r <> ""%string.

(** The page [_readDir] asks for when the stored cursor is [cursor]. *)
Definition fetchPage (fs0 : Fs) (path cursor : string) (w : World)
  : (ListFolderResult + error) * World :=
  if String.eqb cursor "" then
    ListFolder
      {| lf_Path := path;
         lf_Limit := if dirListLimit fs0 =? 0 then 0
                     else dirListLimit fs0 mod 2 ^ 32 |} w
  else ListFolderContinue {| lfc_Cursor := cursor |} w.

(** The pages the remote side serves from a stored cursor on, up to the
    first one that announces no more. *)
Inductive pagesFrom (fs0 : Fs) (path : string)
  : string -> World -> list ListFolderResult -> World -> Prop :=
| pages_last (cursor : string) (w w' : World) (r : ListFolderResult) :
    fetchPage fs0 path cursor w = (inl r, w') ->
    HasMore r = false ->
    pagesFrom fs0 path cursor w [r] w'
| pages_more (cursor : string) (w w' w'' : World) (r : ListFolderResult)
    (rest : list ListFolderResult) :
    fetchPage fs0 path cursor w = (inl r, w') ->
    HasMore r = true ->
    pagesFrom fs0 path (Cursor r) w' rest w'' ->
    pagesFrom fs0 path cursor w (r :: rest) w''.

(** A page fits the channel of [dirListingMaxLimit] places. *)
Definition fitsChannel (r : ListFolderResult) : Prop :=
  len (Entries r) <= dirListingMaxLimit.

(** Once a cursor is stored the channel exists: [_readDir] makes it on the
    first fetch. *)
Definition pagerReady (f : File Stream) : Prop :=
  dirListCursor f <> ""%string -> exists q, dirList f = Some q.

(** Two states of a handle that differ at most in the pager (channel,
    cursor, done flag). *)
Definition sameOutsidePager (f f' : File Stream) : Prop :=
  fs f' = fs f /\ name f' = name f /\
  streamRead f' = streamRead f /\ streamWrite f' = streamWrite f /\
  cachedInfo f' = cachedInfo f /\
  streamReadOffset f' = streamReadOffset f.

(** ** Properties of the read path *)

Ltac read_path :=
  unfold ReadAt, WriteAt, Seek, seekRead, openReadStream, Read, Write,
    Truncate in *; simpl in *.

Lemma wrap64_small (z : Z) : in_int64 z -> wrap64 z = z.
Proof.
  unfold in_int64, wrap64. intros H.
  rewrite Z.mod_small; lia.
Qed.

(** A successful seek on a read handle returns the target of
    [seekTarget]. *)
Lemma Seek_returns_target (offset whence : Z) (f f' : File Stream)
  (w w' : World) (pos : Z) :
  streamWrite f = None ->
  Seek offset whence f w = Returns ((pos, None), f', w') ->
  seekTarget offset whence f = Returns pos.
Proof.
  intros Hw. unfold Seek. rewrite Hw.
  destruct (streamRead f) as [s|] eqn:Hs; [|discriminate].
  unfold seekRead. rewrite Hs.
  destruct (seekTarget offset whence f) as [t| | |]; simpl; try discriminate.
  destruct (stream_Close s) as [[e|] s']; [discriminate|].
  destruct (t <? 0); [discriminate|].
  destruct (openReadStream t (set_streamRead None f) w) as [[err f1] w1].
  intros H. inversion H. reflexivity.
Qed.

(** C8: [Truncate] returns NotSupported on every handle and for every
    size; while a write stream is open, [Seek] and [WriteAt] return
    NotSupported for all arguments, and change nothing. *)
Theorem not_supported_operations
  (f0 f : File Stream) (pw : Pipe) (size offset whence off : Z)
  (p : list byte) (w : World) :
  streamWrite f = Some pw ->
  Truncate size f0 = Some ErrNotSupported /\
  Seek offset whence f w = Returns ((0, Some ErrNotSupported), f, w) /\
  WriteAt p off f w = Returns ((0, Some ErrNotSupported), f, w).
Proof.
  intros H. read_path. rewrite H. simpl. auto.
Qed.

(** C7: opening a write stream on a handle [f] that has one fails with
    AlreadyOpened and leaves the handle as it was; on a handle [g] that has
    none it succeeds, the cached metadata is absent afterwards, and a
    second opening fails with AlreadyOpened. *)
Theorem openWriteStream_already_opened (f g : File Stream) (pw : Pipe) :
  streamWrite f = Some pw ->
  streamWrite g = None ->
  openWriteStream f = (Some ErrAlreadyOpened, f, false) /\
  exists g',
    openWriteStream g = (None, g', true) /\
    cachedInfo g' = None /\
    streamWrite g' = Some newPipe /\
    openWriteStream g' = (Some ErrAlreadyOpened, g', false).
Proof.
  intros Hf Hg. unfold openWriteStream. rewrite Hf, Hg. split; [reflexivity|].
  eexists. split; [reflexivity|]. simpl. auto.
Qed.

(** C2: on a handle with an open read stream that closes without error, a
    seek whose target is negative returns InvalidSeek together with the
    target and leaves no read stream; after it [Seek] reports the closed
    handle, but [Read] dereferences the absent stream and panics. *)
Theorem negative_seek_then_read_panics
  (f : File Stream) (s s' : Stream) (offset whence target : Z) (w : World)
  (p : list byte) :
  streamWrite f = None ->
  streamRead f = Some s ->
  stream_Close s = (None, s') ->
  seekTarget offset whence f = Returns target ->
  target < 0 ->
  Seek offset whence f w
  = Returns ((target, Some ErrInvalidSeek), set_streamRead None f, w) /\
  streamRead (set_streamRead None f) = None /\
  Read p (set_streamRead None f) = Panics /\
  Seek offset whence (set_streamRead None f) w
  = Returns ((0, Some ErrFileClosed), set_streamRead None f, w).
Proof.
  intros Hw Hr Hc Ht Hneg. read_path. rewrite Hw, Hr, Ht. simpl.
  rewrite Hc. apply Z.ltb_lt in Hneg. rewrite Hneg. auto.
Qed.

(** C3: on a handle with an open read stream that closes without error,
    [Seek(pos, SeekStart)] for [pos >= 0] leaves the handle on the stream
    of the download of the object from byte [pos] (no [Range] header for
    [pos = 0]), and the next [Read] delivers the buffer that a read on that
    download delivers, with the same count unless the stream reports an
    error other than EOF. *)
Theorem seek_start_then_read
  (f : File Stream) (s s' content : Stream) (pos : Z) (w w' : World)
  (p : list byte) :
  streamWrite f = None ->
  streamRead f = Some s ->
  stream_Close s = (None, s') ->
  0 <= pos ->
  Download {| dl_Path := name f;
              dl_ExtraHeaders :=
                if pos =? 0 then []
                else [("Range"%string, rangeHeader pos)] |} w
  = ((Some content, None), w') ->
  exists f1,
    Seek pos SeekStart f w = Returns ((pos, None), f1, w') /\
    streamRead f1 = Some content /\
    streamReadOffset f1 = pos /\
    let '((p', n, err), _) := stream_Read content p in
    exists n' err' f2,
      Read p f1 = Returns ((p', n', err'), f2) /\
      (err = None <-> err' = None) /\
      (errors_Is_opt err = true <-> err' = Some EOF) /\
      (err = None \/ errors_Is_opt err = true -> n' = n).
Proof.
  intros Hw Hr Hc Hpos Hd. read_path. rewrite Hw, Hr. simpl. rewrite Hc.
  destruct (pos <? 0) eqn:Hlt; [apply Z.ltb_lt in Hlt; lia|].
  unfold downloadRequest.
  replace (0 <? pos) with (negb (pos =? 0)) by
    (destruct (Z.eqb_spec pos 0), (Z.ltb_spec 0 pos); simpl; lia).
  destruct (pos =? 0) eqn:H0; simpl in *; rewrite Hd;
    (eexists; split; [reflexivity|]; simpl; split; [reflexivity|];
     split; [reflexivity|];
     destruct (stream_Read content p) as [[[p' n] [e|]] c'];
     [ destruct (errors_Is e EOF) eqn:HE; do 3 eexists;
       (split; [reflexivity|]); unfold errors_Is_opt; rewrite HE;
       repeat split; try intros; try discriminate; try tauto;
       try (destruct H; discriminate)
     | do 3 eexists; (split; [reflexivity|]); unfold errors_Is_opt;
       repeat split; try intros; try discriminate; tauto ]).
Qed.

(** C4: on a handle with an open read stream that closes without error
    and cached metadata of size [size], an end-relative seek computes the
    target [size - offset] in [int64] arithmetic (the plain difference when
    it fits, which is not [size + offset] unless [offset = 0]); a negative
    target gives InvalidSeek, and otherwise the download of the object is
    requested again with the header [Range: bytes=target-] (no header for
    target 0), the target becomes the read offset, the handle holds the
    body of that download and the next [Read] delivers what a read on that
    body delivers. *)
Theorem seek_end_subtracts
  (f : File Stream) (s s' : Stream) (fi : FileInfo) (size offset : Z)
  (w : World) :
  streamWrite f = None ->
  streamRead f = Some s ->
  stream_Close s = (None, s') ->
  cachedInfo f = Some fi ->
  FileInfoM.Size fi = Returns size ->
  seekTarget offset SeekEnd f = Returns (sub64 size offset) /\
  (in_int64 (size - offset) -> sub64 size offset = size - offset) /\
  (in_int64 (size - offset) -> offset <> 0 ->
   sub64 size offset <> size + offset) /\
  (sub64 size offset < 0 ->
   Seek offset SeekEnd f w
   = Returns ((sub64 size offset, Some ErrInvalidSeek),
              set_streamRead None f, w)) /\
  (0 <= sub64 size offset ->
   let req :=
     {| dl_Path := name f;
        dl_ExtraHeaders :=
          if sub64 size offset =? 0 then []
          else [("Range"%string,
                 ("bytes="
                  ++ NilZero.string_of_int (Z.to_int (sub64 size offset))
                  ++ "-")%string)] |} in
   exists err f',
     Seek offset SeekEnd f w
     = Returns ((sub64 size offset, err), f', snd (Download req w)) /\
     streamRead f' = fst (fst (Download req w)) /\
     streamReadOffset f' = sub64 size offset /\
     (err = None <-> snd (fst (Download req w)) = None) /\
     forall (p : list byte) (content : Stream),
       fst (fst (Download req w)) = Some content ->
       let '((p', n, rerr), _) := stream_Read content p in
       exists n' err' f2,
         Read p f' = Returns ((p', n', err'), f2) /\
         (rerr = None <-> err' = None) /\
         (errors_Is_opt rerr = true <-> err' = Some EOF) /\
         (rerr = None \/ errors_Is_opt rerr = true -> n' = n)).
Proof.
  intros Hw Hr Hc Hi Hs.
  assert (Ht : seekTarget offset SeekEnd f = Returns (sub64 size offset)).
  { unfold seekTarget. simpl. rewrite Hi, Hs. reflexivity. }
  split; [exact Ht|].
  split; [intros; apply wrap64_small; assumption|].
  split.
  { intros Hin Hoff. unfold sub64. rewrite wrap64_small by assumption. lia. }
  split.
  - intros Hneg. unfold Seek, seekRead. rewrite Hw, Hr, Ht. simpl.
    rewrite Hc. apply Z.ltb_lt in Hneg. rewrite Hneg. reflexivity.
  - intros Hpos req.
    assert (Hreq : downloadRequest (name f) (sub64 size offset) = req).
    { unfold downloadRequest, rangeHeader, req.
      replace (0 <? sub64 size offset)
        with (negb (sub64 size offset =? 0))
        by (destruct (Z.eqb_spec (sub64 size offset) 0),
                     (Z.ltb_spec 0 (sub64 size offset)); simpl; lia).
      destruct (sub64 size offset =? 0); reflexivity. }
    clearbody req.
    unfold Seek, seekRead. rewrite Hw, Hr, Ht. simpl. rewrite Hc.
    destruct (sub64 size offset <? 0) eqn:Hlt;
      [apply Z.ltb_lt in Hlt; lia|].
    unfold openReadStream. simpl. rewrite Hreq.
    destruct (Download req w) as [[content [e|]] w1]; simpl;
      do 2 eexists; (split; [reflexivity|]); simpl;
      (split; [reflexivity|]); (split; [reflexivity|]);
      (split; [split; intros; try discriminate; reflexivity|]);
      intros p c Hcont; subst content; unfold Read; simpl;
      destruct (stream_Read c p) as [[[p' n] [e'|]] c'];
      [ destruct (errors_Is e' EOF) eqn:HE; do 3 eexists;
        (split; [reflexivity|]); unfold errors_Is_opt; rewrite HE;
        repeat split; try intros; try discriminate; try tauto;
        try (destruct H; discriminate)
      | do 3 eexists; (split; [reflexivity|]); unfold errors_Is_opt;
        repeat split; try intros; try discriminate; tauto
      | destruct (errors_Is e' EOF) eqn:HE; do 3 eexists;
        (split; [reflexivity|]); unfold errors_Is_opt; rewrite HE;
        repeat split; try intros; try discriminate; try tauto;
        try (destruct H; discriminate)
      | do 3 eexists; (split; [reflexivity|]); unfold errors_Is_opt;
        repeat split; try intros; try discriminate; tauto ].
Qed.

(** C10: when the stream delivers [n > 0] bytes together with an error
    that is EOF, [Read] returns [n] and EOF and the read offset stays
    where it was; a current-relative seek (also the one of [ReadAt])
    afterwards computes its target from that offset, [n] bytes short of
    what was delivered. *)
Theorem read_eof_keeps_offset
  (f : File Stream) (s s' : Stream) (p p' : list byte) (n : Z) (e : error) :
  streamRead f = Some s ->
  stream_Read s p = ((p', n, Some e), s') ->
  errors_Is e EOF = true ->
  0 < n ->
  Read p f = Returns ((p', n, Some EOF), set_streamRead (Some s') f) /\
  streamReadOffset (set_streamRead (Some s') f) = streamReadOffset f /\
  forall off : Z,
    seekTarget off SeekCurrent (set_streamRead (Some s') f)
    = Returns (add64 (streamReadOffset f) off) /\
    (in_int64 (streamReadOffset f + off) ->
     add64 (streamReadOffset f) off = streamReadOffset f + off /\
     add64 (streamReadOffset f) off < (streamReadOffset f + n) + off) /\
    (forall (w w' : World) (pos : Z) (f' : File Stream),
        streamWrite f = None ->
        Seek off SeekCurrent (set_streamRead (Some s') f) w
        = Returns ((pos, None), f', w') ->
        pos = add64 (streamReadOffset f) off).
Proof.
  intros Hr Hs He Hn. unfold Read. rewrite Hr, Hs, He.
  split; [reflexivity|]. split; [reflexivity|].
  intros off. split; [reflexivity|]. split.
  - intros H1. unfold add64. rewrite wrap64_small by assumption. lia.
  - intros w w' pos f' Hw H.
    apply Seek_returns_target in H; [|exact Hw].
    unfold seekTarget in H. simpl in H. inversion H. reflexivity.
Qed.

(** C9 (amended): [ReadAt(p, off)] on a handle with an open read stream at
    read offset [c] downloads from byte [c + off] ([int64] arithmetic) and
    reads there.  When that read delivers [n] bytes without error, the
    read offset becomes [c + off + n], so a second [ReadAt(p, off)] starts
    at [c + off + n + off]: a position other than the first one exactly
    when [n + off <> 0]. *)
Theorem readAt_is_current_relative
  (f : File Stream) (s s' content content' : Stream) (off n : Z)
  (w w' : World) (p p' : list byte) :
  streamWrite f = None ->
  streamRead f = Some s ->
  stream_Close s = (None, s') ->
  0 <= add64 (streamReadOffset f) off ->
  Download (downloadRequest (name f) (add64 (streamReadOffset f) off)) w
  = ((Some content, None), w') ->
  stream_Read content p = ((p', n, None), content') ->
  exists f1,
    ReadAt p off f w = Returns ((p', n, None), f1, w') /\
    streamReadOffset f1 = add64 (add64 (streamReadOffset f) off) n /\
    seekTarget off SeekCurrent f1
    = Returns (add64 (add64 (add64 (streamReadOffset f) off) n) off) /\
    (in_int64 (streamReadOffset f + off) ->
     add64 (streamReadOffset f) off = streamReadOffset f + off) /\
    (in_int64 (streamReadOffset f + off) ->
     in_int64 (streamReadOffset f + off + n) ->
     in_int64 (streamReadOffset f + off + n + off) ->
     (add64 (add64 (add64 (streamReadOffset f) off) n) off
      <> add64 (streamReadOffset f) off <-> n + off <> 0)).
Proof.
  intros Hw Hr Hc Hpos Hd Hs.
  unfold ReadAt, Seek, seekRead. rewrite Hw, Hr. simpl. rewrite Hc.
  destruct (add64 (streamReadOffset f) off <? 0) eqn:Hlt;
    [apply Z.ltb_lt in Hlt; lia|].
  unfold openReadStream. simpl. rewrite Hd. simpl.
  unfold Read. simpl. rewrite Hs. simpl.
  eexists. split; [reflexivity|]. simpl.
  split; [reflexivity|]. split; [reflexivity|].
  split; [intros; apply wrap64_small; assumption|].
  intros H1 H2 H3. unfold add64.
  rewrite (wrap64_small (streamReadOffset f + off)) by assumption.
  rewrite (wrap64_small (streamReadOffset f + off + n)) by assumption.
  rewrite (wrap64_small (streamReadOffset f + off + n + off)) by assumption.
  lia.
Qed.

(** ** Properties of the write path *)

(** [Write] reports what the pipe reports: nothing, or the closed pipe;
    never the error of the upload. *)
Lemma Write_reports_pipe_only (p : list byte) (f f' : File Stream)
  (n : Z) (err : option error) :
  Write p f = Returns ((n, err), f') ->
  (n = len p /\ err = None) \/ (n = 0 /\ err = Some ErrClosedPipe).
Proof.
  unfold Write. destruct (streamWrite f) as [pw|]; [|discriminate].
  unfold pipe_Write. destruct (pipeClosed pw); simpl; intros H;
    inversion H; auto.
Qed.

Section FailingUpload.

(** The upload fails with the transport error [e] on the remote side [w0]
    of the session. *)
Variable e : error.
Variable w0 : World.
Hypothesis upload_fails :
  forall req data, snd (fst (Upload req data w0)) = Some e.

Lemma uploadTask_fails (f : File Stream) (w : World) :
  sessionInv e w0 (f, true, w) ->
  exists f' w',
    uploadTask f w = Returns (f', w') /\ sessionInv e w0 (f', false, w').
Proof.
  intros (Hr & (pw & Hpw) & Hch & ->). unfold uploadTask. rewrite Hpw.
  match goal with |- context [Upload ?r ?d w0] =>
    pose proof (upload_fails r d) as Hf;
    destruct (Upload r d w0) as [[m err] w1] end.
  simpl in Hf. subst err. simpl. rewrite Hch.
  do 2 eexists. split; [reflexivity|]. simpl.
  repeat split; eauto.
Qed.

Lemma writeStep_inv (ev : writeEvent) (st : File Stream * bool * World) :
  sessionInv e w0 st ->
  exists st', writeStep ev st = Returns st' /\ sessionInv e w0 st'.
Proof.
  destruct st as [[f running] w]. intros H. destruct ev as [p|]; simpl.
  - destruct H as (Hr & (pw & Hpw) & Hch). unfold Write. rewrite Hpw.
    destruct (pipe_Write pw p) as [r pw']. simpl.
    eexists. split; [reflexivity|]. simpl. repeat split; eauto.
  - destruct running.
    + destruct (uploadTask_fails f w H) as (f' & w' & Hu & Hi).
      rewrite Hu. simpl. eauto.
    + eauto.
Qed.

Lemma writeSteps_inv (evs : list writeEvent)
  (st : File Stream * bool * World) :
  sessionInv e w0 st ->
  exists st', writeSteps evs st = Returns st' /\ sessionInv e w0 st'.
Proof.
  revert st. induction evs as [|ev evs IH]; intros st H; simpl.
  - eauto.
  - destruct (writeStep_inv ev st H) as (st1 & Hs & Hi). rewrite Hs. simpl.
    apply IH. exact Hi.
Qed.

(** C1: a write session on a handle without streams, in which the upload
    fails with [e], whatever the writes and whenever the upload returns:
    [Close] returns [e], but the cached metadata, absent after the opening,
    now holds the result of the failed upload, and [Stat] answers with it
    without asking the remote side. *)
Theorem failed_upload_sets_cached_metadata
  (f : File Stream) (evs : list writeEvent) :
  streamRead f = None ->
  streamWrite f = None ->
  exists m f' w',
    writeSession evs f w0 = Returns (Some e, f', w') /\
    cachedInfo (snd (fst (openWriteStream f))) = None /\
    cachedInfo f' = Some (newFileInfo (FileMeta m)) /\
    Stat f' w' = ((Some (newFileInfo (FileMeta m)), None), f', w').
Proof.
  intros Hr Hw. unfold writeSession, openWriteStream. rewrite Hw.
  match goal with |- context [writeSteps evs ?st] =>
    destruct (writeSteps_inv evs st) as ([[f1 running] w1] & Hs & Hi) end.
  { simpl. repeat split; eauto. }
  rewrite Hs. simpl.
  destruct Hi as (H1 & (pw & H2) & H3).
  assert (Hfinal : exists f2 w2,
             (if running
              then uploadTask
                     (set_streamWrite (Some (snd (pipe_Close pw))) f1) w1
              else Returns
                     (set_streamWrite (Some (snd (pipe_Close pw))) f1, w1))
             = Returns (f2, w2) /\ sessionInv e w0 (f2, false, w2)).
  { destruct running.
    - apply uploadTask_fails. destruct H3 as [H3 H4].
      simpl. repeat split; eauto.
    - do 2 eexists. split; [reflexivity|]. destruct H3 as [H3 H4].
      simpl. repeat split; eauto. }
  destruct Hfinal as (f2 & w2 & Hrun & Hi2).
  unfold Close. rewrite H1, H2. simpl. simpl in Hrun.
  rewrite Hrun. simpl.
  destruct Hi2 as (_ & _ & Hch & (m & Hm)). rewrite Hch. simpl.
  exists m. do 2 eexists. split; [reflexivity|]. simpl.
  split; [reflexivity|]. split; [exact Hm|].
  unfold Stat. simpl. rewrite Hm. reflexivity.
Qed.

End FailingUpload.

(** ** Properties of the directory listing *)

Lemma readDirAll_loop_continue (path : string)
  (r : ListFolderResult) (w : World) (rest : list ListFolderResult)
  (w' : World) :
  continuePages r w rest w' ->
  Forall cursorIssued (r :: rest) ->
  HasMore r = true ->
  forall (fuel : nat) (fis : list FileInfo),
    (List.length rest <= fuel)%nat ->
    readDirAll_loop fuel path fis (Cursor r) w
    = Returns ((fis ++ map newFileInfo (List.concat (map Entries rest)), None),
               w').
Proof.
  induction 1 as [r w Hm | r r' w w' w'' rest Hm Hc Hrest IH];
    intros Hok Hmore fuel fis Hfuel.
  - congruence.
  - destruct fuel as [|fuel]; [simpl in Hfuel; lia|]. simpl.
    inversion Hok as [|? ? Hr Hok']; subst.
    specialize (Hr Hmore).
    destruct (Cursor r) as [|a c] eqn:Hcur; [congruence|]. simpl.
    rewrite Hc. rewrite map_app, app_assoc.
    destruct (HasMore r') eqn:Hm'; simpl.
    + apply IH; [assumption|reflexivity|simpl in Hfuel; lia].
    + inversion Hrest; subst; [|congruence]. simpl.
      rewrite app_nil_r. reflexivity.
Qed.

Lemma map_Sys_newFileInfo (ms : list IsMetadata) :
  map FileInfoM.Sys (map newFileInfo ms) = ms.
Proof.
  induction ms as [|m ms IH]; simpl; [reflexivity|]. rewrite IH. reflexivity.
Qed.

(** C5: when the listing of the directory is the finite sequence [pages]
    (each page that announces more carrying a cursor), [Readdir] with
    [count <= 0] returns one [FileInfo] for each entry of each page, in
    order, each holding that entry as its metadata ([Sys]), whatever the
    state of the handle, which it leaves as it was. *)
Theorem Readdir_all_pages
  (f : File Stream) (count : Z) (w w' : World)
  (pages : list ListFolderResult) :
  count <= 0 ->
  listingPages (name f) w pages w' ->
  Forall cursorIssued pages ->
  forall fuel : nat,
    (List.length pages <= fuel)%nat ->
    exists lst,
      Readdir fuel count f w = Returns ((lst, None), f, w') /\
      lst = map newFileInfo (List.concat (map Entries pages)) /\
      map FileInfoM.Sys lst = List.concat (map Entries pages).
Proof.
  intros Hc (r0 & w0 & rest & H0 & Hrest & ->) Hok fuel Hfuel.
  exists (map newFileInfo (List.concat (map Entries (r0 :: rest)))).
  split; [|split; [reflexivity|apply map_Sys_newFileInfo]].
  unfold Readdir, _readDirAll.
  destruct (Z.leb_spec count 0); [|lia].
  destruct fuel as [|fuel]; [simpl in Hfuel; lia|]. simpl. rewrite H0.
  destruct (HasMore r0) eqn:Hm; simpl.
  - rewrite (readDirAll_loop_continue (name f) r0 w0 rest w' Hrest Hok Hm);
      [|simpl in Hfuel; lia].
    simpl. rewrite map_app. reflexivity.
  - inversion Hrest; subst; [|congruence]. simpl. rewrite app_nil_r.
    reflexivity.
Qed.

Lemma len_app {A : Type} (l1 l2 : list A) : len (l1 ++ l2) = len l1 + len l2.
Proof. unfold len. rewrite length_app. lia. Qed.

Lemma len_nonneg {A : Type} (l : list A) : 0 <= len l.
Proof. unfold len. lia. Qed.

Lemma len_zero {A : Type} (l : list A) : len l = 0 -> l = [].
Proof. destruct l; [reflexivity|unfold len; simpl; lia]. Qed.

Lemma sendAll_fits (ms : list IsMetadata) (q : list FileInfo) :
  len q + len ms <= dirListingMaxLimit ->
  sendAll ms (Some q) = Returns (Some (q ++ map newFileInfo ms)).
Proof.
  revert q. induction ms as [|m ms IH]; intros q H; simpl.
  - rewrite app_nil_r. reflexivity.
  - change (len (m :: ms)) with (len ([m] ++ ms)) in H.
    rewrite len_app in H. pose proof (len_nonneg ms).
    change (len [m]) with 1 in H.
    destruct (Z.ltb_spec (len q) dirListingMaxLimit); [|lia]. simpl.
    rewrite IH.
    + rewrite <- app_assoc. reflexivity.
    + rewrite len_app. change (len [newFileInfo m]) with 1. lia.
Qed.

Lemma _readDir_fetches (f : File Stream) (w w' : World)
  (r : ListFolderResult) :
  chanLen (dirList f) = 0 ->
  pagerReady f ->
  fetchPage (fs f) (name f) (dirListCursor f) w = (inl r, w') ->
  fitsChannel r ->
  _readDir f w
  = Returns (None,
             set_dirList (Some (map newFileInfo (Entries r)))
               (set_dirListDone (negb (HasMore r))
                  (set_dirListCursor (Cursor r) f)), w').
Proof.
  intros Hlen Hready Hfetch Hfit. unfold _readDir, fetchPage in *.
  destruct (String.eqb (dirListCursor f) "") eqn:E.
  - simpl in Hfetch |- *. rewrite Hfetch. simpl.
    rewrite sendAll_fits by (exact Hfit). reflexivity.
  - apply String.eqb_neq in E. destruct (Hready E) as [q Hq].
    rewrite Hq in Hlen. simpl in Hlen. apply len_zero in Hlen. subst q.
    rewrite Hfetch. simpl. rewrite Hq.
    rewrite sendAll_fits by (exact Hfit). reflexivity.
Qed.

Lemma drain_spec (count : Z) (queue lst : list FileInfo) :
  len lst <= count ->
  let k := Z.to_nat (count - len lst) in
  drain count lst queue = (lst ++ firstn k queue, skipn k queue) /\
  len (fst (drain count lst queue)) <= count /\
  (snd (drain count lst queue) = [] \/
   len (fst (drain count lst queue)) = count).
Proof.
  revert lst. induction queue as [|x queue IH]; intros lst H; simpl.
  - rewrite firstn_nil, skipn_nil, app_nil_r. auto.
  - destruct (Z.ltb_spec (len lst) count) as [Hlt|Hge].
    + assert (H' : len (lst ++ [x]) <= count).
      { rewrite len_app. change (len [x]) with 1. lia. }
      destruct (IH (lst ++ [x]) H') as (E & Hle & Hor).
      split; [|auto].
      rewrite E. rewrite len_app. change (len [x]) with 1.
      replace (Z.to_nat (count - len lst))
        with (S (Z.to_nat (count - (len lst + 1)))) by lia.
      simpl. rewrite <- app_assoc. reflexivity.
    + replace (count - len lst) with 0 by lia. simpl.
      rewrite app_nil_r. split; [reflexivity|]. split; [lia|right; lia].
Qed.

Lemma Readdir_loop_stops (fuel : nat) (count : Z) (lst : list FileInfo)
  (f : File Stream) (w : World) :
  count <= len lst \/ dirListDone f = true ->
  Readdir_loop (S fuel) count lst f w = Returns ((lst, None), f, w).
Proof.
  intros [H|H]; simpl.
  - destruct (Z.ltb_spec (len lst) count); [lia|]. reflexivity.
  - rewrite H. rewrite andb_false_r. reflexivity.
Qed.

Lemma Readdir_loop_fetch_step (fuel : nat) (count : Z)
  (lst : list FileInfo) (f : File Stream) (w w' : World)
  (r : ListFolderResult) :
  len lst < count ->
  dirListDone f = false ->
  chanLen (dirList f) = 0 ->
  pagerReady f ->
  fetchPage (fs f) (name f) (dirListCursor f) w = (inl r, w') ->
  fitsChannel r ->
  Readdir_loop (S fuel) count lst f w
  = Readdir_loop fuel count
      (fst (drain count lst (map newFileInfo (Entries r))))
      (set_dirList (Some (snd (drain count lst (map newFileInfo (Entries r)))))
         (set_dirListDone (negb (HasMore r))
            (set_dirListCursor (Cursor r) f))) w'.
Proof.
  intros Hlt Hdone Hlen Hready Hf Hr.
  cbn [Readdir_loop]. rewrite Hdone. simpl negb. rewrite andb_true_r.
  destruct (Z.ltb_spec (len lst) count); [|lia].
  rewrite Hlen. simpl Z.eqb. cbv iota.
  rewrite (_readDir_fetches f w w' r Hlen Hready Hf Hr). simpl bind.
  unfold drainChan. simpl dirList. cbv iota.
  destruct (drain count lst (map newFileInfo (Entries r))) as [lst' q'].
  reflexivity.
Qed.

Lemma Readdir_loop_fetching (fs0 : Fs) (path cursor : string)
  (w w_end : World) (pages : list ListFolderResult) :
  pagesFrom fs0 path cursor w pages w_end ->
  Forall fitsChannel pages ->
  forall (count : Z) (lst : list FileInfo) (f : File Stream),
    fs f = fs0 -> name f = path -> dirListCursor f = cursor ->
    dirListDone f = false ->
    pagerReady f ->
    chanLen (dirList f) = 0 ->
    len lst < count ->
    exists fuel lst' f' w',
      Readdir_loop fuel count lst f w = Returns ((lst', None), f', w') /\
      len lst' <= count /\
      (len lst' = count \/ dirListDone f' = true) /\
      pagerReady f'.
Proof.
  induction 1 as [cursor w w' r Hf Hm
                 | cursor w w' w'' r rest Hf Hm Hrest IH];
    intros Hfit count lst f Hfs Hname Hcur Hdone Hready Hlen Hlt;
    inversion Hfit as [|? ? Hr Hfit']; subst;
    pose proof (Readdir_loop_fetch_step 1 count lst f w w' r
                  Hlt Hdone Hlen Hready Hf Hr) as Hstep1;
    pose proof (drain_spec count (map newFileInfo (Entries r)) lst
                  ltac:(lia)) as (_ & Hle & Hor).
  - exists 2%nat. do 3 eexists.
    split; [rewrite Hstep1; apply Readdir_loop_stops; right; simpl;
            rewrite Hm; reflexivity|].
    split; [exact Hle|]. split; [right; simpl; rewrite Hm; reflexivity|].
    intros _. simpl. eauto.
  - destruct (Z.ltb_spec
                (len (fst (drain count lst (map newFileInfo (Entries r)))))
                count) as [Hlt'|Hge'].
    + destruct Hor as [Hq|Hq]; [|lia].
      edestruct (IH Hfit' count
                   (fst (drain count lst (map newFileInfo (Entries r))))
                   (set_dirList
                      (Some (snd (drain count lst
                                    (map newFileInfo (Entries r)))))
                      (set_dirListDone (negb (HasMore r))
                         (set_dirListCursor (Cursor r) f))))
        as (fuel & lst2 & f2 & w2 & Hrun & Hres);
        try reflexivity; try assumption.
      { simpl. rewrite Hm. reflexivity. }
      { intros _. simpl. eauto. }
      { simpl. rewrite Hq. reflexivity. }
      exists (S fuel), lst2, f2, w2. split; [|exact Hres].
      rewrite (Readdir_loop_fetch_step fuel count lst f w w' r
                 Hlt Hdone Hlen Hready Hf Hr). exact Hrun.
    + exists 2%nat. do 3 eexists.
      split; [rewrite Hstep1; apply Readdir_loop_stops; left; exact Hge'|].
      split; [exact Hle|]. split; [left; lia|].
      intros _. simpl. eauto.
Qed.

Lemma Readdir_loop_buffered_step (fuel : nat) (count : Z)
  (lst q : list FileInfo) (f : File Stream) (w : World) :
  dirList f = Some q ->
  q <> [] ->
  len lst < count ->
  dirListDone f = false ->
  Readdir_loop (S fuel) count lst f w
  = Readdir_loop fuel count (fst (drain count lst q))
      (set_dirList (Some (snd (drain count lst q))) f) w.
Proof.
  intros Hq Hne Hlt Hdone.
  cbn [Readdir_loop]. rewrite Hdone. simpl negb. rewrite andb_true_r.
  destruct (Z.ltb_spec (len lst) count); [|lia].
  rewrite Hq. simpl chanLen.
  destruct (Z.eqb_spec (len q) 0) as [E|E];
    [apply len_zero in E; contradiction|].
  simpl bind. unfold drainChan. rewrite Hq.
  destruct (drain count lst q) as [lst' q']. reflexivity.
Qed.

Lemma Readdir_loop_result (fuel : nat) (count : Z) :
  forall (lst lst' : list FileInfo) (f f' : File Stream) (w w' : World),
    Readdir_loop fuel count lst f w = Returns ((lst', None), f', w') ->
    len lst <= count ->
    len lst' <= count /\ (len lst' = count \/ dirListDone f' = true).
Proof.
  induction fuel as [|fuel IH]; intros lst lst' f f' w w' H Hle;
    simpl in H; [discriminate|].
  destruct ((len lst <? count) && negb (dirListDone f)) eqn:Hc.
  - destruct (if chanLen (dirList f) =? 0 then _readDir f w
              else Returns (None, f, w)) as [[[err1 f1] w1]| | |];
      simpl in H; try discriminate.
    destruct err1 as [e1|]; [discriminate|].
    destruct (drainChan count lst f1) as [lst1 f2] eqn:Hd.
    apply IH in H; [exact H|].
    unfold drainChan in Hd. destruct (dirList f1) as [q|].
    + pose proof (drain_spec count q lst Hle) as (_ & Hle1 & _).
      destruct (drain count lst q) as [a b]. inversion Hd; subst.
      exact Hle1.
    + inversion Hd; subst. exact Hle.
  - inversion H; subst. split; [exact Hle|].
    apply andb_false_iff in Hc. destruct Hc as [Hc|Hc].
    + apply Z.ltb_ge in Hc. left. lia.
    + right. destruct (dirListDone f'); [reflexivity|discriminate].
Qed.

(** ** Further properties of reading and seeking *)

Lemma wrap64_add_l (a b : Z) : wrap64 (wrap64 a + b) = wrap64 (a + b).
Proof.
  unfold wrap64.
  replace ((a + 2 ^ 63) mod 2 ^ 64 - 2 ^ 63 + b + 2 ^ 63)
    with ((a + 2 ^ 63) mod 2 ^ 64 + b) by lia.
  rewrite Zplus_mod_idemp_l.
  replace (a + 2 ^ 63 + b) with (a + b + 2 ^ 63) by lia. reflexivity.
Qed.

Lemma errors_Is_refl (e : error) : errors_Is e e = true.
Proof.
  destruct e; cbn [errors_Is];
    match goal with |- context [error_eq_dec ?a ?b] =>
      destruct (error_eq_dec a b); [reflexivity|congruence] end.
Qed.

Lemma errors_Is_wrapped (ctx : string) (e : error) :
  errors_Is (Errorf ctx e) e = true.
Proof.
  cbn [errors_Is]. destruct (error_eq_dec (Errorf ctx e) e); [reflexivity|].
  apply errors_Is_refl.
Qed.

(** The three ways [Read] returns. *)
Lemma Read_cases
  (f f' : File Stream) (p p' : list byte) (n : Z) (err : option error) :
  Read p f = Returns ((p', n, err), f') ->
  (err = None /\
   streamReadOffset f' = add64 (streamReadOffset f) n) \/
  (err = Some EOF /\ streamReadOffset f' = streamReadOffset f) \/
  (exists cause,
      err = Some (Errorf "couldn't read from stream" cause) /\
      errors_Is cause EOF = false /\
      errors_Is (Errorf "couldn't read from stream" cause) cause = true /\
      n = 0 /\
      streamReadOffset f' = streamReadOffset f).
Proof.
  unfold Read. destruct (streamRead f) as [s|]; [|discriminate].
  destruct (stream_Read s p) as [[[q m] [e|]] s'].
  - destruct (errors_Is e EOF) eqn:HE; intros H; inversion H; subst.
    + right. left. auto.
    + right. right. exists e.
      repeat split; auto using errors_Is_wrapped.
  - intros H. inversion H; subst. left. auto.
Qed.

(** X1: every result of [Read] has one of three shapes: no error, and the
    read offset advanced by the count; exactly [io.EOF], offset unchanged;
    or a wrap of a non-EOF cause, reported with count 0 whatever the
    stream delivered, offset unchanged, the cause found by [errors.Is]. *)
Theorem Read_result_shapes
  (f f' : File Stream) (p p' : list byte) (n : Z) (err : option error) :
  Read p f = Returns ((p', n, err), f') ->
  (err = None /\
   streamReadOffset f' = add64 (streamReadOffset f) n) \/
  (err = Some EOF /\ streamReadOffset f' = streamReadOffset f) \/
  (exists cause,
      err = Some (Errorf "couldn't read from stream" cause) /\
      errors_Is cause EOF = false /\
      errors_Is (Errorf "couldn't read from stream" cause) cause = true /\
      n = 0 /\
      streamReadOffset f' = streamReadOffset f).
Proof. apply Read_cases. Qed.

(** X2: over a sequence of [Read] calls the read offset grows by exactly
    the bytes returned with a nil error ([int64] arithmetic); bytes that
    came with EOF or with a transport error are not counted. *)
Theorem readCalls_offset
  (ps : list (list byte)) (f f' : File Stream) (total : Z) :
  in_int64 (streamReadOffset f) ->
  readCalls ps f = Returns (total, f') ->
  streamReadOffset f' = wrap64 (streamReadOffset f + total).
Proof.
  revert f total. induction ps as [|p ps IH]; intros f total Hin H;
    simpl in H.
  - inversion H; subst. rewrite Z.add_0_r. symmetry.
    apply wrap64_small. exact Hin.
  - destruct (Read p f) as [[[[q n] err] f1]| | |] eqn:HR;
      simpl in H; try discriminate.
    destruct (readCalls ps f1) as [[t f2]| | |] eqn:HC;
      simpl in H; try discriminate.
    injection H as Ht Hf. subst total f2.
    assert (Hoff : streamReadOffset f1
                   = wrap64 (streamReadOffset f
                             + match err with None => n | Some _ => 0 end)).
    { destruct (Read_cases f f1 p q n err HR)
        as [[-> Ho]|[[-> Ho]|(c & -> & _ & _ & _ & Ho)]];
        rewrite Ho; try reflexivity;
        rewrite Z.add_0_r; symmetry; apply wrap64_small; exact Hin. }
    assert (Hin1 : in_int64 (streamReadOffset f1)).
    { rewrite Hoff. unfold in_int64, wrap64.
      pose proof (Z.mod_pos_bound
                    (streamReadOffset f
                     + match err with None => n | Some _ => 0 end + 2 ^ 63)
                    (2 ^ 64) ltac:(lia)). lia. }
    rewrite (IH f1 t Hin1 HC).
    rewrite Hoff. rewrite wrap64_add_l. f_equal. lia.
Qed.

(** X3: when closing the previous stream fails, [Seek] returns position 0
    with the wrapped close error, whatever the target (also a negative
    one); the handle keeps the old stream and its offset and nothing is
    asked of the remote side. *)
Theorem Seek_close_failure
  (f : File Stream) (s s' : Stream) (e : error) (offset whence target : Z)
  (w : World) :
  streamWrite f = None ->
  streamRead f = Some s ->
  stream_Close s = (Some e, s') ->
  seekTarget offset whence f = Returns target ->
  Seek offset whence f w
  = Returns ((0, Some (Errorf "couldn't close previous stream" e)),
             set_streamRead (Some s') f, w) /\
  streamReadOffset (set_streamRead (Some s') f) = streamReadOffset f.
Proof.
  intros Hw Hr Hc Ht. unfold Seek, seekRead. rewrite Hw, Hr, Ht. simpl.
  rewrite Hc. split; reflexivity.
Qed.

(** X4: a [whence] other than 0, 1 and 2 is not rejected: the seek goes to
    byte 0, that is, the object is downloaded again from its start without
    a [Range] header, whatever the offset argument. *)
Theorem Seek_unknown_whence_rewinds
  (f : File Stream) (s s' : Stream) (offset whence : Z) (w : World) :
  whence <> SeekStart -> whence <> SeekCurrent -> whence <> SeekEnd ->
  streamWrite f = None ->
  streamRead f = Some s ->
  stream_Close s = (None, s') ->
  exists err f',
    Seek offset whence f w
    = Returns ((0, err), f',
               snd (Download {| dl_Path := name f; dl_ExtraHeaders := [] |}
                      w)) /\
    streamReadOffset f' = 0 /\
    streamRead f'
    = fst (fst (Download {| dl_Path := name f; dl_ExtraHeaders := [] |} w)).
Proof.
  intros H0 H1 H2 Hw Hr Hc. unfold Seek, seekRead, seekTarget.
  rewrite Hw, Hr.
  destruct (Z.eqb_spec whence SeekStart); [contradiction|].
  destruct (Z.eqb_spec whence SeekCurrent); [contradiction|].
  destruct (Z.eqb_spec whence SeekEnd); [contradiction|].
  simpl. rewrite Hc. unfold openReadStream, downloadRequest. simpl.
  destruct (Download {| dl_Path := name f; dl_ExtraHeaders := [] |} w)
    as [[content [e|]] w']; simpl; do 2 eexists;
    (split; [reflexivity|]); split; reflexivity.
Qed.

(** X5: when the download at a non-negative target fails, [Seek] returns
    the target (not 0) together with the wrapped error; the read offset
    has already moved to the target and the handle holds what the client
    returned as body; if that is nil, the handle is closed for [Seek] from
    then on. *)
Theorem Seek_download_failure
  (f : File Stream) (s s' : Stream) (content : option Stream) (e : error)
  (offset whence target : Z) (w w' : World) :
  streamWrite f = None ->
  streamRead f = Some s ->
  stream_Close s = (None, s') ->
  seekTarget offset whence f = Returns target ->
  0 <= target ->
  Download (downloadRequest (name f) target) w = ((content, Some e), w') ->
  exists f',
    Seek offset whence f w
    = Returns ((target, Some (Errorf "couldn't download file" e)), f', w') /\
    streamReadOffset f' = target /\
    streamRead f' = content /\
    (content = None ->
     forall offset' whence' w'',
       Seek offset' whence' f' w''
       = Returns ((0, Some ErrFileClosed), f', w'')).
Proof.
  intros Hw Hr Hc Ht Hpos Hd. unfold Seek at 1. unfold seekRead.
  rewrite Hw, Hr, Ht. simpl. rewrite Hc.
  destruct (Z.ltb_spec target 0); [lia|].
  unfold openReadStream. simpl. rewrite Hd.
  eexists. split; [reflexivity|]. simpl. split; [reflexivity|].
  split; [reflexivity|].
  intros -> offset' whence' w''. unfold Seek. simpl. rewrite Hw. reflexivity.
Qed.

(** X6: [ReadAt] returns the error of its seek with count 0 and the buffer
    untouched: the closed-handle error when there is no stream,
    NotSupported on a write handle; and when the target [c + off] is
    negative it returns InvalidSeek and the handle has lost its read
    stream. *)
Theorem ReadAt_seek_errors
  (f g h : File Stream) (pw : Pipe) (s s' : Stream) (p : list byte)
  (off : Z) (w : World) :
  streamWrite f = None -> streamRead f = None ->
  streamWrite g = Some pw ->
  streamWrite h = None -> streamRead h = Some s ->
  stream_Close s = (None, s') ->
  add64 (streamReadOffset h) off < 0 ->
  ReadAt p off f w = Returns ((p, 0, Some ErrFileClosed), f, w) /\
  ReadAt p off g w = Returns ((p, 0, Some ErrNotSupported), g, w) /\
  ReadAt p off h w
  = Returns ((p, 0, Some ErrInvalidSeek), set_streamRead None h, w).
Proof.
  intros Hfw Hfr Hg Hhw Hhr Hc Hneg. unfold ReadAt, Seek.
  rewrite Hfw, Hfr, Hg, Hhw, Hhr. simpl.
  split; [reflexivity|]. split; [reflexivity|].
  unfold seekRead. rewrite Hhr. simpl. rewrite Hc.
  apply Z.ltb_lt in Hneg. rewrite Hneg. reflexivity.
Qed.

(** X7: [WriteAt] on a handle that is open for reading runs the read
    seek to [c + off] before anything else, and what it returns shows it:
    for a negative target it returns InvalidSeek and the read stream is
    gone; when the download at the target fails it returns the wrapped
    error with the download requested, the read offset moved to the target
    and the handle holding what the client returned; when the seek
    succeeds it panics in [Write], there being no write stream.  On a
    handle without streams it returns the closed-handle error. *)
Theorem WriteAt_on_read_handle
  (f g : File Stream) (s s' : Stream) (p : list byte) (off : Z)
  (w : World) :
  streamWrite f = None -> streamRead f = Some s ->
  stream_Close s = (None, s') ->
  streamWrite g = None -> streamRead g = None ->
  (add64 (streamReadOffset f) off < 0 ->
   WriteAt p off f w
   = Returns ((0, Some ErrInvalidSeek), set_streamRead None f, w)) /\
  (0 <= add64 (streamReadOffset f) off ->
   forall content e w',
     Download (downloadRequest (name f) (add64 (streamReadOffset f) off)) w
     = ((content, Some e), w') ->
     WriteAt p off f w
     = Returns ((0, Some (Errorf "couldn't download file" e)),
                set_streamRead content
                  (set_streamReadOffset (add64 (streamReadOffset f) off)
                     (set_streamRead None f)), w')) /\
  (0 <= add64 (streamReadOffset f) off ->
   forall content w',
     Download (downloadRequest (name f) (add64 (streamReadOffset f) off)) w
     = ((content, None), w') ->
     WriteAt p off f w = Panics /\
     Seek off SeekCurrent f w
     = Returns ((add64 (streamReadOffset f) off, None),
                set_streamRead content
                  (set_streamReadOffset (add64 (streamReadOffset f) off)
                     (set_streamRead None f)), w')) /\
  WriteAt p off g w = Returns ((0, Some ErrFileClosed), g, w).
Proof.
  intros Hw Hr Hc Hgw Hgr. unfold WriteAt, Seek.
  rewrite Hw, Hr, Hgw, Hgr. simpl.
  unfold seekRead. rewrite Hr. simpl. rewrite Hc.
  split; [|split; [|split; [|reflexivity]]].
  - intros Hneg. apply Z.ltb_lt in Hneg. rewrite Hneg. reflexivity.
  - intros Hpos content e w' Hd.
    destruct (Z.ltb_spec (add64 (streamReadOffset f) off) 0); [lia|].
    unfold openReadStream. simpl. rewrite Hd. reflexivity.
  - intros Hpos content w' Hd.
    destruct (Z.ltb_spec (add64 (streamReadOffset f) off) 0); [lia|].
    unfold openReadStream. simpl. rewrite Hd. simpl.
    split; [|reflexivity]. unfold Write. simpl. rewrite Hw. reflexivity.
Qed.

(** ** Further properties of writing, closing and [Stat] *)

Lemma writeSteps_after_return (evs : list writeEvent) :
  forall (f : File Stream) (pw : Pipe) (w : World),
    streamWrite f = Some pw ->
    exists f2 pw2,
      writeSteps evs (f, false, w) = Returns (f2, false, w) /\
      streamWrite f2 = Some pw2 /\
      streamRead f2 = streamRead f /\
      streamWriteCloseErr f2 = streamWriteCloseErr f /\
      cachedInfo f2 = cachedInfo f /\
      name f2 = name f /\
      streamWriteErr f2 = streamWriteErr f.
Proof.
  induction evs as [|ev evs IH]; intros f pw w Hpw; simpl.
  - exists f, pw. repeat split; auto.
  - destruct ev as [p|]; simpl.
    + unfold Write. rewrite Hpw.
      destruct (pipe_Write pw p) as [r pw'] eqn:Hp. simpl.
      destruct (IH (set_streamWrite (Some pw') f) pw' w eq_refl)
        as (f2 & pw2 & H1 & H2 & H3 & H4 & H5 & H6 & H7).
      exists f2, pw2. repeat split; assumption.
    + apply (IH f pw w Hpw).
Qed.

(** The outcome of a write session that starts on a handle whose write
    stream was just opened: [Close] returns what [Upload] returned on the
    bytes written before it returned. *)
Lemma writeSteps_then_Close (evs : list writeEvent) :
  forall (f : File Stream) (pw : Pipe) (w0 w' : World)
         (m : option FileMetadata) (err : option error),
    streamRead f = None ->
    streamWrite f = Some pw ->
    pipeClosed pw = false ->
    streamWriteCloseErr f = Some (ChanOpen None) ->
    Upload (uploadRequest (name f)) (pipeData pw ++ writtenBeforeReturn evs)
      w0 = ((m, err), w') ->
    exists f2,
      ('(f1, running, w1) <- writeSteps evs (f, true, w0) ;;
       '(cerr, f2, _, w2) <- Close f1 running w1 ;;
       Returns (cerr, f2, w2)) = Returns (err, f2, w') /\
      cachedInfo f2 = Some (newFileInfo (FileMeta m)) /\
      streamWrite f2 = None /\
      streamRead f2 = None /\
      streamWriteCloseErr f2 = None /\
      name f2 = name f /\
      streamWriteErr f2
      = match err with Some e => Some e | None => streamWriteErr f end.
Proof.
  induction evs as [|ev evs IH]; intros f pw w0 w' m err Hr Hpw Hcl Hch Hu.
  - simpl in Hu |- *. rewrite app_nil_r in Hu.
    unfold Close. rewrite Hr, Hpw. simpl.
    unfold uploadTask. simpl. unfold uploadRequest in Hu. rewrite Hu.
    destruct err as [e|]; simpl; rewrite Hch; simpl;
      eexists; (split; [reflexivity|]); simpl; repeat split;
      try reflexivity; exact Hr.
  - destruct ev as [p|].
    + simpl in Hu. cbn [writeSteps writeStep]. unfold Write. rewrite Hpw.
      unfold pipe_Write. rewrite Hcl. simpl bind.
      rewrite app_assoc in Hu.
      destruct (IH (set_streamWrite
                      (Some {| pipeData := pipeData pw ++ p;
                               pipeClosed := false |}) f)
                  {| pipeData := pipeData pw ++ p; pipeClosed := false |}
                  w0 w' m err Hr eq_refl eq_refl Hch Hu)
        as (f2 & H1 & H2 & H3 & H4 & H5 & H6 & H7).
      exists f2. repeat split; assumption.
    + simpl in Hu. rewrite app_nil_r in Hu.
      cbn [writeSteps writeStep]. unfold uploadTask. rewrite Hpw.
      unfold uploadRequest in Hu. rewrite Hu.
      destruct err as [e|]; simpl; rewrite Hch; simpl.
      * match goal with |- context [writeSteps evs (?g, false, w')] =>
          destruct (writeSteps_after_return evs g
                      {| pipeData := pipeData pw; pipeClosed := true |} w'
                      eq_refl)
            as (f2 & pw2 & H1 & H2 & H3 & H4 & H5 & H6 & H7) end.
        simpl in H3, H4, H5, H6, H7. rewrite H1. simpl. unfold Close.
        rewrite H3, Hr, H2. simpl. rewrite H4. simpl.
        eexists. split; [reflexivity|]. simpl. repeat split; auto;
          congruence.
      * match goal with |- context [writeSteps evs (?g, false, w')] =>
          destruct (writeSteps_after_return evs g pw w' Hpw)
            as (f2 & pw2 & H1 & H2 & H3 & H4 & H5 & H6 & H7) end.
        simpl in H3, H4, H5, H6, H7. rewrite H1. simpl. unfold Close.
        rewrite H3, Hr, H2. simpl. rewrite H4. simpl.
        eexists. split; [reflexivity|]. simpl. repeat split; auto;
          congruence.
Qed.

Lemma writeSession_outcome (evs : list writeEvent) (f : File Stream)
  (w0 w' : World) (m : option FileMetadata) (err : option error) :
  streamRead f = None ->
  streamWrite f = None ->
  Upload (uploadRequest (name f)) (writtenBeforeReturn evs) w0
  = ((m, err), w') ->
  exists f2,
    writeSession evs f w0 = Returns (err, f2, w') /\
    cachedInfo f2 = Some (newFileInfo (FileMeta m)) /\
    streamWrite f2 = None /\
    streamRead f2 = None /\
    name f2 = name f.
Proof.
  intros Hr Hw Hu. unfold writeSession, openWriteStream. rewrite Hw.
  destruct (writeSteps_then_Close evs
              (set_streamWrite (Some newPipe)
                 (set_streamWriteCloseErr (Some (ChanOpen None))
                    (set_cachedInfo None f)))
              newPipe w0 w' m err Hr eq_refl eq_refl eq_refl Hu)
    as (f2 & H1 & H2 & H3 & H4 & H5 & H6 & H7).
  exists f2. split; [exact H1|]. repeat split; assumption.
Qed.

Lemma writtenBeforeReturn_writes (ps : list (list byte)) :
  writtenBeforeReturn (map CallWrite ps) = List.concat ps.
Proof.
  induction ps as [|p ps IH]; simpl; [reflexivity|]. rewrite IH. reflexivity.
Qed.

(** X8: a write session whose upload succeeds at [Close] with metadata
    [m]: the upload receives the written buffers concatenated in order,
    [Close] returns nil and leaves no write stream, the cache holds [m]
    and [Stat] answers from it without asking the remote side. *)
Theorem successful_write_session
  (ps : list (list byte)) (f : File Stream) (w0 w' : World)
  (m : option FileMetadata) :
  streamRead f = None ->
  streamWrite f = None ->
  Upload (uploadRequest (name f)) (List.concat ps) w0 = ((m, None), w') ->
  exists f2,
    writeSession (map CallWrite ps) f w0 = Returns (None, f2, w') /\
    streamWrite f2 = None /\
    cachedInfo f2 = Some (newFileInfo (FileMeta m)) /\
    forall w2,
      Stat f2 w2 = ((Some (newFileInfo (FileMeta m)), None), f2, w2).
Proof.
  intros Hr Hw Hu. rewrite <- writtenBeforeReturn_writes in Hu.
  destruct (writeSession_outcome _ f w0 w' m None Hr Hw Hu)
    as (f2 & H1 & H2 & H3 & H4 & H5).
  exists f2. repeat split; try assumption.
  intros w2. unfold Stat. rewrite H2. reflexivity.
Qed.

(** X9: when the upload fails and returns no metadata (a nil pointer), the
    [FileInfo] that [Stat] returns after the session is unusable: it is
    not a directory, but [Name], [Size] and [ModTime] panic on it. *)
Theorem Stat_after_failed_upload_panics
  (evs : list writeEvent) (f : File Stream) (w0 w' : World) (e : error) :
  streamRead f = None ->
  streamWrite f = None ->
  Upload (uploadRequest (name f)) (writtenBeforeReturn evs) w0
  = ((None, Some e), w') ->
  exists f2 fi,
    writeSession evs f w0 = Returns (Some e, f2, w') /\
    Stat f2 w' = ((Some fi, None), f2, w') /\
    FileInfoM.IsDir fi = false /\
    FileInfoM.Name fi = Panics /\
    FileInfoM.Size fi = Panics /\
    FileInfoM.ModTime fi = Panics.
Proof.
  intros Hr Hw Hu.
  destruct (writeSession_outcome _ f w0 w' None (Some e) Hr Hw Hu)
    as (f2 & H1 & H2 & H3 & H4 & H5).
  exists f2, (newFileInfo (FileMeta None)). split; [exact H1|].
  unfold Stat. rewrite H2. repeat split; reflexivity.
Qed.

(** X10: once the background upload has failed with [e], the handle records
    [e] in [streamWriteErr] and every later [Write] and [WriteString]
    fails at once with [io.ErrClosedPipe] and count 0, leaving the handle
    as it is; [e] itself is not reported before [Close]. *)
Theorem writes_after_failed_upload
  (f : File Stream) (pw : Pipe) (w w' : World)
  (m : option FileMetadata) (e : error) :
  streamWrite f = Some pw ->
  streamWriteCloseErr f = Some (ChanOpen None) ->
  Upload (uploadRequest (name f)) (pipeData pw) w = ((m, Some e), w') ->
  exists f1,
    uploadTask f w = Returns (f1, w') /\
    streamWriteErr f1 = Some e /\
    (forall p, Write p f1 = Returns ((0, Some ErrClosedPipe), f1)) /\
    (forall str, WriteString str f1 = Returns ((0, Some ErrClosedPipe), f1)).
Proof.
  intros Hpw Hch Hu. unfold uploadTask. rewrite Hpw.
  unfold uploadRequest in Hu. rewrite Hu. simpl. rewrite Hch.
  eexists. split; [reflexivity|]. split; [reflexivity|].
  split; intros; reflexivity.
Qed.

(** X11: [Close] leaves no stream on a handle that had at most one, and
    closing again returns nil and changes nothing; on a read handle the
    stream is dropped and the error of its [Close] returned as it is, also
    when that closing fails. *)
Theorem Close_twice
  (f f' : File Stream) (running running' : bool) (w w' : World)
  (err : option error) :
  streamRead f = None \/ streamWrite f = None ->
  Close f running w = Returns (err, f', running', w') ->
  streamRead f' = None /\
  streamWrite f' = None /\
  Close f' running' w' = Returns (None, f', running', w') /\
  (forall s, streamRead f = Some s -> err = fst (stream_Close s) /\ w' = w).
Proof.
  intros Hone H.
  assert (Hstreams : streamRead f' = None /\ streamWrite f' = None /\
                     (forall s, streamRead f = Some s ->
                                err = fst (stream_Close s) /\ w' = w)).
  { unfold Close in H. destruct (streamRead f) as [s|] eqn:Hr.
    - destruct Hone as [Hone|Hone]; [discriminate|].
      destruct (stream_Close s) as [cerr s'] eqn:Hc.
      inversion H; subst. simpl.
      split; [reflexivity|]. split; [exact Hone|].
      intros s0 Hs0. inversion Hs0; subst. rewrite Hc. split; reflexivity.
    - destruct (streamWrite f) as [pw|] eqn:Hw.
      + simpl in H.
        destruct (if running
                  then uploadTask
                         (set_streamWrite
                            (Some {| pipeData := pipeData pw;
                                     pipeClosed := true |}) f) w
                  else Returns
                         (set_streamWrite
                            (Some {| pipeData := pipeData pw;
                                     pipeClosed := true |}) f, w))
          as [[f1 w1]| | |] eqn:Hrun; simpl in H; try discriminate.
        assert (Hr1 : streamRead f1 = None).
        { destruct running.
          - unfold uploadTask in Hrun. simpl in Hrun.
            destruct (Upload _ _ w) as [[m0 err0] w0].
            destruct err0; simpl in Hrun;
              destruct (streamWriteCloseErr f) as [[[v|]|]|];
              simpl in Hrun; try discriminate;
              inversion Hrun; subst; simpl; exact Hr.
          - inversion Hrun; subst. simpl. exact Hr. }
        destruct (streamWriteCloseErr f1) as [[[v|]|]|];
          try discriminate.
        inversion H; subst. simpl.
        split; [exact Hr1|]. split; [reflexivity|].
        intros s Hs. discriminate.
      + inversion H; subst.
        split; [exact Hr|]. split; [exact Hw|].
        intros s Hs. discriminate. }
  destruct Hstreams as (H1 & H2 & H3).
  split; [exact H1|]. split; [exact H2|]. split; [|exact H3].
  unfold Close. rewrite H1, H2. reflexivity.
Qed.

(** X12: [Stat] asks the remote side at most once: after a [Stat] that
    returned a [FileInfo], every later [Stat] returns the same one with a
    nil error and makes no call; a [Stat] that got none leaves the cache
    empty. *)
Theorem Stat_caches
  (f f1 : File Stream) (w w1 : World) (info : option FileInfo)
  (err : option error) :
  Stat f w = ((info, err), f1, w1) ->
  cachedInfo f1 = info /\
  forall fi, info = Some fi ->
    forall w2, Stat f1 w2 = ((Some fi, None), f1, w2).
Proof.
  unfold Stat. destruct (cachedInfo f) as [fi0|] eqn:Hc.
  - intros H. inversion H; subst. split; [exact Hc|].
    intros fi Hfi w2. inversion Hfi; subst. rewrite Hc. reflexivity.
  - destruct (fs_stat (name f) w) as [[fi e] w0]. intros H.
    inversion H; subst. simpl. split; [reflexivity|].
    intros fi Hfi w2. subst. reflexivity.
Qed.


(** ** Further properties of the directory listing *)

Lemma Readdir_allocated (fuel : nat) (count : Z) (f : File Stream)
  (w : World) :
  0 < count ->
  sliceAllocates count = true ->
  Readdir fuel count f w = Readdir_loop fuel count [] f w.
Proof.
  intros Hc Ha. unfold Readdir, makeFileInfos.
  destruct (Z.leb_spec count 0); [lia|].
  destruct (Z.leb_spec 0 count); [|lia]. rewrite Ha. reflexivity.
Qed.

Lemma Readdir_not_allocated (fuel : nat) (count : Z) (f : File Stream)
  (w : World) :
  0 < count ->
  sliceAllocates count = false ->
  Readdir fuel count f w = Panics.
Proof.
  intros Hc Ha. unfold Readdir, makeFileInfos.
  destruct (Z.leb_spec count 0); [lia|].
  rewrite Ha, andb_false_r. reflexivity.
Qed.

Lemma Readdir_returns_allocated (fuel : nat) (count : Z) (f : File Stream)
  (w : World) (r : (list FileInfo * option error) * File Stream * World) :
  0 < count ->
  Readdir fuel count f w = Returns r ->
  Readdir_loop fuel count [] f w = Returns r.
Proof.
  intros Hc H. destruct (sliceAllocates count) eqn:Ha.
  - rewrite Readdir_allocated in H; assumption.
  - rewrite Readdir_not_allocated in H; [discriminate|assumption..].
Qed.

(** X14: once the done flag is set, [Readdir(count)] with a [count > 0]
    that the runtime can allocate returns an empty list and no error
    without looking at the channel: entries that were fetched with the
    last page but not yet returned are never delivered. *)
Theorem Readdir_after_done
  (f : File Stream) (count : Z) (w : World) (fuel : nat) :
  0 < count ->
  sliceAllocates count = true ->
  dirListDone f = true ->
  Readdir (S fuel) count f w = Returns (([], None), f, w).
Proof.
  intros Hc Ha Hd. rewrite Readdir_allocated by assumption.
  apply Readdir_loop_stops. right. exact Hd.
Qed.

Lemma sendAll_overflow (ms : list IsMetadata) :
  forall q : list FileInfo,
    len q <= dirListingMaxLimit ->
    dirListingMaxLimit < len q + len ms ->
    sendAll ms (Some q) = Blocks.
Proof.
  induction ms as [|m ms IH]; intros q Hq Hover; simpl.
  - change (len (@nil IsMetadata)) with 0 in Hover. lia.
  - change (len (m :: ms)) with (len ([m] ++ ms)) in Hover.
    rewrite len_app in Hover. change (len [m]) with 1 in Hover.
    destruct (Z.ltb_spec (len q) dirListingMaxLimit) as [Hlt|Hge];
      [|reflexivity].
    simpl. apply IH.
    + rewrite len_app. change (len [newFileInfo m]) with 1. lia.
    + rewrite len_app. change (len [newFileInfo m]) with 1. lia.
Qed.

(** X15: a page with more entries than the channel has places
    ([dirListingMaxLimit] = 2000) blocks [_readDir], and with it
    [Readdir(count)] for a [count > 0] that the runtime can allocate, for
    ever: the channel has no other reader. *)
Theorem Readdir_blocks_on_large_page
  (f : File Stream) (count : Z) (w w' : World) (r : ListFolderResult)
  (fuel : nat) :
  0 < count ->
  dirListDone f = false ->
  chanLen (dirList f) = 0 ->
  pagerReady f ->
  fetchPage (fs f) (name f) (dirListCursor f) w = (inl r, w') ->
  dirListingMaxLimit < len (Entries r) ->
  _readDir f w = Blocks /\
  (sliceAllocates count = true -> Readdir (S fuel) count f w = Blocks).
Proof.
  intros Hc Hd Hlen Hready Hf Hbig.
  assert (Hrd : _readDir f w = Blocks).
  { unfold _readDir, fetchPage in *.
    destruct (String.eqb (dirListCursor f) "") eqn:E.
    - simpl in Hf |- *. rewrite Hf. simpl.
      rewrite sendAll_overflow; [reflexivity| |].
      + change (len (@nil FileInfo)) with 0. unfold dirListingMaxLimit. lia.
      + change (len (@nil FileInfo)) with 0. lia.
    - apply String.eqb_neq in E. destruct (Hready E) as [q Hq].
      rewrite Hq in Hlen. simpl in Hlen. apply len_zero in Hlen. subst q.
      rewrite Hf. simpl. rewrite Hq.
      rewrite sendAll_overflow; [reflexivity| |].
      + change (len (@nil FileInfo)) with 0. unfold dirListingMaxLimit. lia.
      + change (len (@nil FileInfo)) with 0. lia. }
  split; [exact Hrd|]. intros Ha.
  rewrite Readdir_allocated by assumption.
  cbn [Readdir_loop]. rewrite Hd. simpl negb. rewrite andb_true_r.
  change (len (@nil FileInfo)) with 0.
  destruct (Z.ltb_spec 0 count); [|lia].
  rewrite Hlen. simpl Z.eqb. cbv iota. rewrite Hrd. reflexivity.
Qed.

(** X16: when the fetch of a page fails, [Readdir(count)] for a
    [count > 0] that the runtime can allocate returns a nil list and the
    error wrapped with its context; the cursor and the done flag are as
    before and the channel is empty, so the next call asks for the same
    page again. *)
Theorem Readdir_fetch_error
  (f : File Stream) (count : Z) (w w' : World) (e : error) (fuel : nat) :
  0 < count ->
  sliceAllocates count = true ->
  dirListDone f = false ->
  chanLen (dirList f) = 0 ->
  fetchPage (fs f) (name f) (dirListCursor f) w = (inr e, w') ->
  exists f',
    Readdir (S fuel) count f w
    = Returns (([], Some (Errorf "couldn't fetch files list" e)), f', w') /\
    errors_Is (Errorf "couldn't fetch files list" e) e = true /\
    dirListCursor f' = dirListCursor f /\
    dirListDone f' = false /\
    chanLen (dirList f') = 0.
Proof.
  intros Hc Ha Hd Hlen Hf.
  rewrite Readdir_allocated by assumption.
  cbn [Readdir_loop]. rewrite Hd. simpl negb. rewrite andb_true_r.
  change (len (@nil FileInfo)) with 0.
  destruct (Z.ltb_spec 0 count); [|lia].
  rewrite Hlen. simpl Z.eqb. cbv iota.
  unfold _readDir, fetchPage in *.
  destruct (String.eqb (dirListCursor f) "") eqn:E.
  - simpl in Hf |- *. rewrite Hf. simpl.
    eexists. split; [reflexivity|]. simpl.
    split; [apply errors_Is_wrapped|]. auto.
  - rewrite Hf. simpl.
    eexists. split; [reflexivity|].
    split; [apply errors_Is_wrapped|]. auto.
Qed.

(** X17: [Readdir] with [count <= 0] gives up at the first failing call: when
    the continuation after a first page fails, the entries of that page are
    dropped, and the client's error is returned as it is (not wrapped, unlike
    for [count > 0]); the handle is untouched. *)
Theorem Readdir_all_error
  (f : File Stream) (count : Z) (w w0 w1 : World) (r0 : ListFolderResult)
  (e : error) (fuel : nat) :
  count <= 0 ->
  ListFolder {| lf_Path := name f; lf_Limit := 0 |} w = (inl r0, w0) ->
  HasMore r0 = true ->
  Cursor r0 <> ""%string ->
  ListFolderContinue {| lfc_Cursor := Cursor r0 |} w0 = (inr e, w1) ->
  Readdir (S (S fuel)) count f w = Returns (([], Some e), f, w1).
Proof.
  intros Hc H0 Hm Hcur H1. unfold Readdir, _readDirAll.
  destruct (Z.leb_spec count 0); [|lia].
  simpl. rewrite H0, Hm. simpl.
  destruct (Cursor r0) as [|a c] eqn:E; [congruence|]. simpl.
  rewrite H1. reflexivity.
Qed.

(** X18: when every listing call answers with a page that announces more,
    [Readdir] with [count <= 0] never returns: no number of iterations is
    enough. *)
Theorem Readdir_all_never_returns
  (f : File Stream) (count : Z) (w : World) (fuel : nat) :
  (forall arg w0, exists r w1,
      ListFolder arg w0 = (inl r, w1) /\ HasMore r = true) ->
  (forall arg w0, exists r w1,
      ListFolderContinue arg w0 = (inl r, w1) /\ HasMore r = true) ->
  count <= 0 ->
  Readdir fuel count f w = OutOfFuel.
Proof.
  intros HL HC Hc. unfold Readdir, _readDirAll.
  destruct (Z.leb_spec count 0); [|lia].
  assert (Hloop : forall fuel fis cursor w0,
             readDirAll_loop fuel (name f) fis cursor w0 = OutOfFuel).
  { clear fuel. induction fuel as [|fuel IH]; intros fis cursor w0;
      [reflexivity|]. simpl.
    destruct (String.length cursor =? 0)%nat.
    - destruct (HL {| lf_Path := name f; lf_Limit := 0 |} w0)
        as (r & w1 & -> & Hm). rewrite Hm. simpl. apply IH.
    - destruct (HC {| lfc_Cursor := cursor |} w0) as (r & w1 & -> & Hm).
      rewrite Hm. simpl. apply IH. }
  rewrite Hloop. reflexivity.
Qed.

Lemma drain_keeps_order (count : Z) (queue lst : list FileInfo) :
  len lst <= count ->
  fst (drain count lst queue) ++ snd (drain count lst queue) = lst ++ queue.
Proof.
  intros H. destruct (drain_spec count queue lst H) as (E & _ & _).
  rewrite E. simpl. rewrite <- app_assoc, firstn_skipn. reflexivity.
Qed.

Lemma Readdir_loop_delivers (fs0 : Fs) (path cursor : string)
  (w w_end : World) (pages : list ListFolderResult) :
  pagesFrom fs0 path cursor w pages w_end ->
  Forall fitsChannel pages ->
  forall (count : Z) (lst : list FileInfo) (f : File Stream),
    fs f = fs0 -> name f = path -> dirListCursor f = cursor ->
    dirListDone f = false ->
    pagerReady f ->
    chanLen (dirList f) = 0 ->
    len lst < count ->
    exists fuel lst' f' w' k,
      Readdir_loop fuel count lst f w = Returns ((lst', None), f', w') /\
      len lst' <= count /\
      pagerReady f' /\
      (k <= List.length pages)%nat /\
      lst' ++ chanQueue (dirList f')
      = lst ++ map newFileInfo (List.concat (map Entries (firstn k pages))) /\
      (dirListDone f' = true -> k = List.length pages /\ w' = w_end) /\
      (dirListDone f' = false ->
       len lst' = count /\
       pagesFrom fs0 path (dirListCursor f') w' (skipn k pages) w_end /\
       fs f' = fs0 /\ name f' = path).
Proof.
  induction 1 as [cursor w w' r Hf Hm
                 | cursor w w' w'' r rest Hf Hm Hrest IH];
    intros Hfit count lst f Hfs Hname Hcur Hdone Hready Hlen Hlt;
    inversion Hfit as [|? ? Hr Hfit']; subst;
    pose proof (Readdir_loop_fetch_step 1 count lst f w w' r
                  Hlt Hdone Hlen Hready Hf Hr) as Hstep1;
    pose proof (drain_spec count (map newFileInfo (Entries r)) lst
                  ltac:(lia)) as (_ & Hle & Hor);
    pose proof (drain_keeps_order count (map newFileInfo (Entries r)) lst
                  ltac:(lia)) as Hord.
  - exists 2%nat. do 3 eexists. exists 1%nat.
    split; [rewrite Hstep1; apply Readdir_loop_stops; right; simpl;
            rewrite Hm; reflexivity|].
    split; [exact Hle|]. split; [intros _; simpl; eauto|].
    split; [simpl; lia|]. simpl. rewrite app_nil_r.
    split; [exact Hord|]. rewrite Hm. simpl.
    split; [auto|discriminate].
  - destruct (Z.ltb_spec
                (len (fst (drain count lst (map newFileInfo (Entries r)))))
                count) as [Hlt'|Hge'].
    + destruct Hor as [Hq|Hq]; [|lia].
      rewrite Hq, app_nil_r in Hord.
      edestruct (IH Hfit' count
                   (fst (drain count lst (map newFileInfo (Entries r))))
                   (set_dirList
                      (Some (snd (drain count lst
                                    (map newFileInfo (Entries r)))))
                      (set_dirListDone (negb (HasMore r))
                         (set_dirListCursor (Cursor r) f))))
        as (fuel & lst2 & f2 & w2 & k & Hrun & Hle2 & Hr2 & Hk & Hcat
            & Hd1 & Hd2);
        try reflexivity; try assumption.
      { simpl. rewrite Hm. reflexivity. }
      { intros _. simpl. eauto. }
      { simpl. rewrite Hq. reflexivity. }
      exists (S fuel), lst2, f2, w2, (S k).
      split.
      { rewrite (Readdir_loop_fetch_step fuel count lst f w w' r
                   Hlt Hdone Hlen Hready Hf Hr). exact Hrun. }
      split; [exact Hle2|]. split; [exact Hr2|].
      split; [simpl; lia|].
      split.
      { rewrite Hcat, Hord. simpl. rewrite map_app, app_assoc.
        reflexivity. }
      split.
      { intros Hd. destruct (Hd1 Hd) as [-> ->]. split; reflexivity. }
      { intros Hd. simpl skipn. apply Hd2. exact Hd. }
    + exists 2%nat. do 3 eexists. exists 1%nat.
      split; [rewrite Hstep1; apply Readdir_loop_stops; left; exact Hge'|].
      split; [exact Hle|]. split; [intros _; simpl; eauto|].
      split; [simpl; lia|]. simpl. rewrite app_nil_r.
      split; [exact Hord|]. rewrite Hm. simpl.
      split; [discriminate|]. intros _.
      split; [lia|]. split; [exact Hrest|].
      split; reflexivity.
Qed.

Lemma chanLen_zero_queue (q : option (list FileInfo)) :
  chanLen q = 0 -> chanQueue q = [].
Proof.
  destruct q as [l|]; simpl; [apply len_zero|reflexivity].
Qed.

(** The loop of [Readdir] on an empty list, the channel holding whatever it
    holds, when the remote side serves [pages] from the stored cursor
    on. *)
Lemma Readdir_loop_serves
  (f : File Stream) (count : Z) (w w_end : World)
  (pages : list ListFolderResult) :
  0 < count ->
  pagerReady f ->
  dirListDone f = false ->
  pagesFrom (fs f) (name f) (dirListCursor f) w pages w_end ->
  Forall fitsChannel pages ->
  exists fuel lst f' w' k,
    Readdir_loop fuel count [] f w = Returns ((lst, None), f', w') /\
    len lst <= count /\
    pagerReady f' /\
    (k <= List.length pages)%nat /\
    lst ++ chanQueue (dirList f')
    = chanQueue (dirList f)
      ++ map newFileInfo (List.concat (map Entries (firstn k pages))) /\
    (dirListDone f' = true -> k = List.length pages /\ w' = w_end) /\
    (dirListDone f' = false ->
     len lst = count /\
     pagesFrom (fs f) (name f) (dirListCursor f') w' (skipn k pages) w_end).
Proof.
  intros Hcount Hready Hdone Hp Hfit.
  destruct (Z.eq_dec (chanLen (dirList f)) 0) as [Hlen|Hlen].
  - destruct (Readdir_loop_delivers _ _ _ _ _ _ Hp Hfit count [] f)
      as (fuel & lst & f' & w' & k & Hrun & Hle & Hr' & Hk & Hcat & Hd1
          & Hd2);
      try reflexivity; try assumption.
    exists fuel, lst, f', w', k.
    split; [exact Hrun|]. split; [exact Hle|]. split; [exact Hr'|].
    split; [exact Hk|].
    split; [rewrite Hcat, (chanLen_zero_queue _ Hlen); reflexivity|].
    split; [exact Hd1|]. intros Hd. destruct (Hd2 Hd) as (H1 & H2 & _).
    split; assumption.
  - destruct (dirList f) as [q|] eqn:Hq; [|simpl in Hlen; lia].
    assert (Hne : q <> []) by (intros ->; apply Hlen; reflexivity).
    pose proof (drain_spec count q [] ltac:(exact (Z.lt_le_incl _ _ Hcount)))
      as (_ & Hle & Hor).
    pose proof (drain_keeps_order count q []
                  ltac:(exact (Z.lt_le_incl _ _ Hcount))) as Hord.
    simpl app in Hord. simpl chanQueue.
    destruct (Z.ltb_spec (len (fst (drain count [] q))) count)
      as [Hlt'|Hge'].
    + destruct Hor as [Hnil|Heq]; [|lia].
      rewrite Hnil, app_nil_r in Hord.
      destruct (Readdir_loop_delivers _ _ _ _ _ _ Hp Hfit count
                  (fst (drain count [] q))
                  (set_dirList (Some (snd (drain count [] q))) f))
        as (fuel & lst & f' & w' & k & Hrun & Hle' & Hr' & Hk & Hcat & Hd1
            & Hd2);
        try reflexivity; try assumption.
      { intros _. simpl. eauto. }
      { simpl. rewrite Hnil. reflexivity. }
      exists (S fuel), lst, f', w', k.
      rewrite (Readdir_loop_buffered_step fuel count [] q f w Hq Hne
                 Hcount Hdone).
      split; [exact Hrun|]. split; [exact Hle'|]. split; [exact Hr'|].
      split; [exact Hk|].
      split; [rewrite Hcat, Hord; reflexivity|].
      split; [exact Hd1|]. intros Hd. destruct (Hd2 Hd) as (H1 & H2 & _).
      split; assumption.
    + exists 2%nat. do 3 eexists. exists 0%nat.
      rewrite (Readdir_loop_buffered_step 1 count [] q f w Hq Hne
                 Hcount Hdone).
      split; [apply Readdir_loop_stops; left; exact Hge'|].
      split; [exact Hle|]. split; [intros _; simpl; eauto|].
      split; [lia|]. simpl. rewrite app_nil_r.
      split; [exact Hord|]. rewrite Hdone.
      split; [discriminate|]. intros _. split; [lia|exact Hp].
Qed.

(** C6: [Readdir(count)] for [count > 0].
    - Whenever it returns a list without error, whatever the remote side
      does, the list has exactly [count] entries, or fewer with the done
      flag set.
    - It panics when the runtime cannot allocate a list of capacity
      [count].  Otherwise: with the done flag set it returns the empty
      list; and when the remote side serves a finite sequence of pages
      from the stored cursor on, each fitting the channel, it returns such
      a list, made (together with what stays in the channel) of what the
      channel held followed by the entries of the first [k] pages, in
      order, as the metadata ([Sys]) of the [FileInfo]s; all pages were
      fetched if the done flag is set afterwards.
    - An iteration that finds entries in the channel takes them and makes
      no call to the remote side; in particular a request the channel can
      serve alone leaves the remote side and the cursor untouched. *)
Theorem Readdir_short_only_when_done
  (f : File Stream) (count : Z) (w : World) :
  0 < count ->
  (forall fuel lst f' w',
      Readdir fuel count f w = Returns ((lst, None), f', w') ->
      len lst = count \/ (len lst < count /\ dirListDone f' = true)) /\
  (sliceAllocates count = false ->
   forall fuel, Readdir fuel count f w = Panics) /\
  (sliceAllocates count = true -> dirListDone f = true ->
   forall fuel, Readdir (S fuel) count f w = Returns (([], None), f, w)) /\
  (sliceAllocates count = true -> dirListDone f = false -> pagerReady f ->
   forall pages w_end,
     pagesFrom (fs f) (name f) (dirListCursor f) w pages w_end ->
     Forall fitsChannel pages ->
     exists fuel lst f' w' k,
       Readdir fuel count f w = Returns ((lst, None), f', w') /\
       (len lst = count \/ (len lst < count /\ dirListDone f' = true)) /\
       pagerReady f' /\
       (k <= List.length pages)%nat /\
       map FileInfoM.Sys (lst ++ chanQueue (dirList f'))
       = map FileInfoM.Sys (chanQueue (dirList f))
         ++ List.concat (map Entries (firstn k pages)) /\
       (dirListDone f' = true -> k = List.length pages /\ w' = w_end)) /\
  (forall fuel lst0 q,
      dirList f = Some q -> q <> [] -> len lst0 < count ->
      dirListDone f = false ->
      Readdir_loop (S fuel) count lst0 f w
      = Readdir_loop fuel count (fst (drain count lst0 q))
          (set_dirList (Some (snd (drain count lst0 q))) f) w) /\
  (sliceAllocates count = true ->
   forall fuel q,
     dirList f = Some q -> count <= len q -> dirListDone f = false ->
     (2 <= fuel)%nat ->
     Readdir fuel count f w
     = Returns ((firstn (Z.to_nat count) q, None),
                set_dirList (Some (skipn (Z.to_nat count) q)) f, w)).
Proof.
  intros Hcount.
  assert (Hshape : forall (lst : list FileInfo) (f' : File Stream),
             len lst <= count /\ (len lst = count \/ dirListDone f' = true) ->
             len lst = count \/ (len lst < count /\ dirListDone f' = true)).
  { intros lst f' [H1 [H2|H2]]; [left; exact H2|].
    destruct (Z.eq_dec (len lst) count); [left; assumption|right].
    split; [lia|exact H2]. }
  split; [|split; [|split; [|split; [|split]]]].
  - intros fuel lst f' w' H.
    apply Readdir_returns_allocated in H; [|exact Hcount]. apply Hshape.
    apply (Readdir_loop_result fuel count [] lst f f' w w' H).
    change (len (@nil FileInfo)) with 0. lia.
  - intros Ha fuel. apply Readdir_not_allocated; assumption.
  - intros Ha Hdone fuel. rewrite Readdir_allocated by assumption.
    apply Readdir_loop_stops. right. exact Hdone.
  - intros Ha Hdone Hready pages w_end Hp Hfit.
    destruct (Readdir_loop_serves f count w w_end pages Hcount Hready Hdone
                Hp Hfit)
      as (fuel & lst & f' & w' & k & Hrun & Hle & Hr' & Hk & Hcat & Hd1
          & Hd2).
    exists fuel, lst, f', w', k. rewrite Readdir_allocated by assumption.
    split; [exact Hrun|].
    split.
    { apply Hshape. split; [exact Hle|].
      destruct (dirListDone f') eqn:Hd; [right; reflexivity|left].
      apply (Hd2 eq_refl). }
    split; [exact Hr'|]. split; [exact Hk|].
    split; [|exact Hd1].
    rewrite Hcat, map_app, map_Sys_newFileInfo. reflexivity.
  - intros fuel lst0 q Hq Hne Hlt Hdone.
    apply Readdir_loop_buffered_step; assumption.
  - intros Ha fuel q Hq Hle Hdone Hfuel.
    destruct fuel as [|[|fuel]]; try lia.
    rewrite Readdir_allocated by assumption.
    assert (Hne : q <> []).
    { intros ->. change (len (@nil FileInfo)) with 0 in Hle. lia. }
    rewrite (Readdir_loop_buffered_step (S fuel) count [] q f w Hq Hne
               Hcount Hdone).
    pose proof (drain_spec count q [] ltac:(exact (Z.lt_le_incl _ _ Hcount)))
      as (E & _ & _).
    change (len (@nil FileInfo)) with 0 in E. rewrite Z.sub_0_r in E.
    simpl app in E. rewrite E. simpl fst. simpl snd.
    apply Readdir_loop_stops. left.
    unfold len. rewrite length_firstn. unfold len in Hle. lia.
Qed.

(** X19: [Readdir(count)] for [count > 0] the runtime can allocate hands
    the entries over in listing order, none skipped and none twice: when
    the remote side serves the pages [pages] from the stored cursor on,
    the returned list followed by what stays in the channel is what the
    channel held followed by the entries of the first [k] pages, the only
    ones fetched.  If the done flag is set afterwards all pages were
    fetched; if not, exactly [count] entries were returned and the handle
    stands before the remaining pages. *)
Theorem Readdir_in_order
  (f : File Stream) (count : Z) (w w_end : World)
  (pages : list ListFolderResult) :
  0 < count ->
  sliceAllocates count = true ->
  pagerReady f ->
  dirListDone f = false ->
  pagesFrom (fs f) (name f) (dirListCursor f) w pages w_end ->
  Forall fitsChannel pages ->
  exists fuel lst f' w' k,
    Readdir fuel count f w = Returns ((lst, None), f', w') /\
    (k <= List.length pages)%nat /\
    lst ++ chanQueue (dirList f')
    = chanQueue (dirList f)
      ++ map newFileInfo (List.concat (map Entries (firstn k pages))) /\
    map FileInfoM.Sys (lst ++ chanQueue (dirList f'))
    = map FileInfoM.Sys (chanQueue (dirList f))
      ++ List.concat (map Entries (firstn k pages)) /\
    (dirListDone f' = true -> k = List.length pages /\ w' = w_end) /\
    (dirListDone f' = false ->
     len lst = count /\
     pagesFrom (fs f) (name f) (dirListCursor f') w' (skipn k pages) w_end).
Proof.
  intros Hcount Ha Hready Hdone Hp Hfit.
  destruct (Readdir_loop_serves f count w w_end pages Hcount Hready Hdone
              Hp Hfit)
    as (fuel & lst & f' & w' & k & Hrun & Hle & Hr' & Hk & Hcat & Hd1 & Hd2).
  exists fuel, lst, f', w', k. rewrite Readdir_allocated by assumption.
  split; [exact Hrun|]. split; [exact Hk|]. split; [exact Hcat|].
  split; [rewrite Hcat, map_app, map_Sys_newFileInfo; reflexivity|].
  split; [exact Hd1|exact Hd2].
Qed.

(** ** Names of entries and download requests *)

Lemma substring_0_0 (s : string) : substring 0 0 s = ""%string.
Proof. destruct s; reflexivity. Qed.

Lemma substring_whole (s : string) : substring 0 (String.length s) s = s.
Proof. induction s as [|c s IH]; simpl; [reflexivity|]. rewrite IH. reflexivity. Qed.

Lemma lastIndexSlash_bounds (s : string) :
  -1 <= lastIndexSlash s < Z.of_nat (String.length s).
Proof.
  induction s as [|c s IH]; simpl lastIndexSlash; simpl String.length;
    [lia|].
  destruct (Z.leb_spec 0 (lastIndexSlash s)); [lia|].
  destruct (Ascii.eqb c "/"); lia.
Qed.

Lemma lastIndexSlash_none (s : string) :
  lastIndexSlash s < 0 -> hasSlash s = false.
Proof.
  induction s as [|c s IH]; simpl; [reflexivity|].
  pose proof (lastIndexSlash_bounds s).
  destruct (Z.leb_spec 0 (lastIndexSlash s)); [lia|].
  destruct (Ascii.eqb c "/"); [lia|]. intros _. apply IH. lia.
Qed.

Lemma path_Split_cons (c : ascii) (s : string) :
  path_Split (String c s)
  = if 0 <=? lastIndexSlash s
    then (String c (fst (path_Split s)), snd (path_Split s))
    else if Ascii.eqb c "/" then (String c "", s)
         else (""%string, String c s).
Proof.
  unfold path_Split. simpl lastIndexSlash.
  destruct (Z.leb_spec 0 (lastIndexSlash s)) as [Hi|Hi].
  - replace (Z.to_nat (lastIndexSlash s + 1 + 1))
      with (S (Z.to_nat (lastIndexSlash s + 1))) by lia.
    reflexivity.
  - destruct (Ascii.eqb c "/"); simpl.
    + rewrite substring_0_0, Nat.sub_0_r, substring_whole. reflexivity.
    + rewrite substring_whole. reflexivity.
Qed.

Lemma path_Split_spec (path : string) :
  (fst (path_Split path) ++ snd (path_Split path))%string = path /\
  hasSlash (snd (path_Split path)) = false.
Proof.
  induction path as [|c s [IH1 IH2]]; [split; reflexivity|].
  rewrite path_Split_cons.
  destruct (Z.leb_spec 0 (lastIndexSlash s)) as [Hi|Hi];
    cbn [fst snd append hasSlash].
  - rewrite IH1. auto.
  - destruct (Ascii.eqb c "/") eqn:Ec; cbn [fst snd append hasSlash].
    + split; [reflexivity|]. apply lastIndexSlash_none. exact Hi.
    + rewrite Ec. cbn [orb]. split; [reflexivity|].
      apply lastIndexSlash_none. exact Hi.
Qed.

Lemma path_Split_dir (path : string) :
  (lastIndexSlash path < 0 -> fst (path_Split path) = ""%string) /\
  (0 <= lastIndexSlash path ->
   exists d, fst (path_Split path) = (d ++ "/")%string).
Proof.
  induction path as [|c s [IH1 IH2]].
  - split; [reflexivity|]. simpl. lia.
  - rewrite path_Split_cons. simpl lastIndexSlash.
    destruct (Z.leb_spec 0 (lastIndexSlash s)) as [Hi|Hi];
      cbn [fst snd].
    + split; [lia|]. intros _. destruct (IH2 Hi) as [d Hd].
      exists (String c d). rewrite Hd. reflexivity.
    + destruct (Ascii.eqb_spec c "/") as [->|Hc]; cbn [fst snd].
      * split; [lia|]. intros _. exists ""%string. reflexivity.
      * split; [reflexivity|]. lia.
Qed.

Lemma path_Split_base (full : string) :
  isBaseName full (snd (path_Split full)).
Proof.
  destruct (path_Split_spec full) as [H1 H2].
  destruct (path_Split_dir full) as [D1 D2].
  exists (fst (path_Split full)). split; [symmetry; exact H1|].
  split; [exact H2|].
  destruct (Z.lt_ge_cases (lastIndexSlash full) 0); [left|right]; auto.
Qed.

Lemma baseNames_spec (fi : list FileInfo) :
  forall names,
    baseNames fi = Returns names ->
    Forall2 (fun x nm =>
               exists full,
                 FileInfoM.Name x = Returns full /\ isBaseName full nm)
      fi names.
Proof.
  induction fi as [|x fi IH]; intros names H; simpl in H.
  - inversion H; subst. constructor.
  - destruct (FileInfoM.Name x) as [full| | |] eqn:Hn; simpl in H;
      try discriminate.
    destruct (baseNames fi) as [ns| | |] eqn:Hb; simpl in H;
      try discriminate.
    inversion H; subst. constructor; [|apply IH; reflexivity].
    exists full. split; [exact Hn|exact (path_Split_base full)].
Qed.

(** X20: [Readdirnames(n)] returns one name for each entry that
    [Readdir(n)] returns, in the same order: the part of the entry's name
    after its last slash (the name is a directory part, empty or ending
    with a slash, followed by the returned name, which holds no slash); it
    leaves the handle as [Readdir] leaves it, and an error of [Readdir] is
    passed on with a nil list. *)
Theorem Readdirnames_base_names
  (fuel : nat) (n : Z) (f f' : File Stream) (w w' : World)
  (names : list string) (err : option error) :
  Readdirnames fuel n f w = Returns ((names, err), f', w') ->
  exists fi,
    Readdir fuel n f w = Returns ((fi, err), f', w') /\
    (err <> None -> names = []) /\
    (err = None ->
     Forall2 (fun x nm =>
                exists full,
                  FileInfoM.Name x = Returns full /\ isBaseName full nm)
       fi names).
Proof.
  unfold Readdirnames. intros H.
  destruct (Readdir fuel n f w) as [[[[fi e] f1] w1]| | |]; simpl in H;
    try discriminate.
  destruct e as [e|].
  - inversion H; subst. exists fi. split; [reflexivity|].
    split; [reflexivity|discriminate].
  - destruct (baseNames fi) as [ns| | |] eqn:Hb; simpl in H;
      try discriminate.
    inversion H; subst. exists fi. split; [reflexivity|].
    split; [congruence|]. intros _. apply baseNames_spec. exact Hb.
Qed.

Lemma append_cancel_char (c : ascii) (s1 : string) :
  forall s2,
    (s1 ++ String c "")%string = (s2 ++ String c "")%string -> s1 = s2.
Proof.
  induction s1 as [|a s1 IH]; intros [|b s2] H; simpl in H.
  - reflexivity.
  - injection H as _ H. destruct s2; discriminate.
  - injection H as _ H. destruct s1; discriminate.
  - injection H as Ha H. subst. f_equal. apply IH. exact H.
Qed.

(** X21: the download request determines the start position: it carries a
    [Range] header exactly for a positive start, and two requests for
    non-negative starts on one path are equal only for equal starts, so a
    seek never reopens the stream at another byte than its target. *)
Theorem downloadRequest_determines_start (path : string) (a b : Z) :
  0 <= a -> 0 <= b ->
  (dl_ExtraHeaders (downloadRequest path a) = [] <-> a = 0) /\
  (downloadRequest path a = downloadRequest path b -> a = b).
Proof.
  intros Ha Hb. unfold downloadRequest. simpl. split.
  - destruct (Z.ltb_spec 0 a); split; intros H0;
      try discriminate H0; try reflexivity; lia.
  - destruct (Z.ltb_spec 0 a) as [Ha'|Ha'], (Z.ltb_spec 0 b) as [Hb'|Hb'];
      intros H; try (injection H as H); try discriminate; try lia.
    apply append_cancel_char in H.
    assert (Hrt : forall z, 0 < z ->
              NilZero.int_of_string (NilZero.string_of_int (Z.to_int z))
              = Some (Z.to_int z)).
    { intros z Hz. apply NilZero.isi; destruct z; try lia; simpl;
        [|discriminate].
      intros E. inversion E.
      eapply DecimalPos.Unsigned.to_uint_nonnil; eauto. }
    pose proof (Hrt a Ha') as Ea. rewrite H, (Hrt b Hb') in Ea.
    injection Ea as Ea. apply DecimalZ.to_int_inj. symmetry. exact Ea.
Qed.

(** ** Positions, metadata and the channel *)

Lemma wrap64_in_int64 (z : Z) : in_int64 (wrap64 z).
Proof.
  unfold in_int64, wrap64.
  pose proof (Z.mod_pos_bound (z + 2 ^ 63) (2 ^ 64) ltac:(lia)). lia.
Qed.

(** X22: a [Seek] that returns no error returns a position that is not
    negative and is the new read offset; the handle then holds the body of
    the download requested at that position, and a following
    current-relative seek by [b] targets that position plus [b]. *)
Theorem Seek_success
  (offset whence : Z) (f f' : File Stream) (w w' : World) (pos : Z) :
  Seek offset whence f w = Returns ((pos, None), f', w') ->
  0 <= pos /\
  seekTarget offset whence f = Returns pos /\
  streamReadOffset f' = pos /\
  streamWrite f' = None /\
  Download (downloadRequest (name f) pos) w = ((streamRead f', None), w') /\
  forall b, seekTarget b SeekCurrent f' = Returns (add64 pos b).
Proof.
  unfold Seek. destruct (streamWrite f) as [pw|] eqn:Hw; [discriminate|].
  destruct (streamRead f) as [s|] eqn:Hs; [|discriminate].
  unfold seekRead. rewrite Hs.
  destruct (seekTarget offset whence f) as [t| | |]; simpl;
    try discriminate.
  destruct (stream_Close s) as [[e|] s']; [discriminate|].
  destruct (Z.ltb_spec t 0); [discriminate|].
  unfold openReadStream. simpl.
  destruct (Download (downloadRequest (name f) t) w)
    as [[content [e|]] w1] eqn:Hd; [discriminate|].
  intros H0. inversion H0; subst. simpl.
  repeat split; auto.
Qed.

(** X23: an end-relative seek needs the cached metadata: on a read handle
    whose metadata was never fetched, or whose cache holds the result of a
    failed upload, [Seek(offset, io.SeekEnd)] panics, before the stream is
    closed. *)
Theorem Seek_end_without_metadata_panics
  (f : File Stream) (s : Stream) (offset : Z) (w : World) :
  streamWrite f = None ->
  streamRead f = Some s ->
  cachedInfo f = None \/ cachedInfo f = Some (newFileInfo (FileMeta None)) ->
  Seek offset SeekEnd f w = Panics.
Proof.
  intros Hw Hs Hc. unfold Seek, seekRead, seekTarget. rewrite Hw, Hs.
  simpl. destruct Hc as [-> | ->]; reflexivity.
Qed.

(** X24: [Size] always lies in the [int64] range; it is 0 for a folder, the
    remote size for a file below 2^63 bytes, and negative (the size minus
    2^64) for a remote size from 2^63 on. *)
Theorem FileInfo_Size_range (fi : FileInfo) (size : Z) :
  FileInfoM.Size fi = Returns size ->
  in_int64 size /\
  (FileInfoM.IsDir fi = true -> size = 0) /\
  forall file,
    meta fi = FileMeta (Some file) ->
    (0 <= file_Size file < 2 ^ 63 -> size = file_Size file) /\
    (2 ^ 63 <= file_Size file < 2 ^ 64 ->
     size = file_Size file - 2 ^ 64 /\ size < 0).
Proof.
  unfold FileInfoM.Size, FileInfoM.IsDir.
  destruct (meta fi) as [|[file|]|p|n] eqn:Hm; intros H;
    try discriminate; inversion H; subst.
  - split; [unfold in_int64; lia|]. split; [reflexivity|].
    intros file Hf. discriminate.
  - split; [apply wrap64_in_int64|]. split; [discriminate|].
    intros file0 Hf. inversion Hf; subst. split.
    + intros Hr. apply wrap64_small. unfold in_int64. lia.
    + intros Hr. unfold wrap64.
      replace (file_Size file0 + 2 ^ 63)
        with (file_Size file0 - 2 ^ 63 + 1 * 2 ^ 64) by lia.
      rewrite Z_mod_plus_full. rewrite Z.mod_small by lia. lia.
  - split; [unfold in_int64; lia|]. split; [reflexivity|].
    intros file Hf. discriminate.
  - split; [unfold in_int64; lia|]. split; [discriminate|].
    intros file Hf. discriminate.
Qed.

Lemma sendAll_some (ms : list IsMetadata) :
  forall (q : list FileInfo) (q' : option (list FileInfo)),
    sendAll ms (Some q) = Returns q' ->
    exists l, q' = Some l /\
              (len q <= dirListingMaxLimit -> len l <= dirListingMaxLimit).
Proof.
  induction ms as [|m ms IH]; intros q q' H; simpl in H.
  - inversion H; subst. eauto.
  - destruct (Z.ltb_spec (len q) dirListingMaxLimit) as [Hlt|Hge];
      simpl in H; [|discriminate].
    destruct (IH _ _ H) as (l & -> & Hl). exists l. split; [reflexivity|].
    intros _. apply Hl. rewrite len_app. change (len [newFileInfo m]) with 1.
    lia.
Qed.

Lemma sameOutsidePager_refl (f : File Stream) : sameOutsidePager f f.
Proof. unfold sameOutsidePager. auto 10. Qed.

Lemma sameOutsidePager_trans (f g h : File Stream) :
  sameOutsidePager f g -> sameOutsidePager g h -> sameOutsidePager f h.
Proof.
  unfold sameOutsidePager.
  intros (A1 & A2 & A3 & A4 & A5 & A6) (B1 & B2 & B3 & B4 & B5 & B6).
  repeat split; congruence.
Qed.

Lemma _readDir_keeps_pager (f f' : File Stream) (w w' : World)
  (err : option error) :
  pagerReady f ->
  chanLen (dirList f) = 0 ->
  _readDir f w = Returns (err, f', w') ->
  pagerReady f' /\ chanLen (dirList f') <= dirListingMaxLimit /\
  sameOutsidePager f f'.
Proof.
  intros Hready Hlen. unfold _readDir.
  assert (H0 : len (@nil FileInfo) <= dirListingMaxLimit)
    by (unfold len, dirListingMaxLimit; simpl; lia).
  destruct (String.eqb (dirListCursor f) "") eqn:E.
  - simpl.
    match goal with |- context [ListFolder ?a w] =>
      destruct (ListFolder a w) as [[res|e] w1] end.
    + simpl. destruct (sendAll (Entries res) (Some [])) as [q'| | |] eqn:Hs;
        simpl; try discriminate.
      destruct (sendAll_some _ _ _ Hs) as (l & -> & Hl).
      intros H. inversion H; subst.
      split; [intros _; simpl; eauto|].
      split; [simpl; auto|unfold sameOutsidePager; simpl; auto 10].
    + intros H. inversion H; subst.
      split; [intros _; simpl; eauto|].
      split; [simpl; auto|unfold sameOutsidePager; simpl; auto 10].
  - apply String.eqb_neq in E. destruct (Hready E) as [q Hq].
    rewrite Hq in Hlen. simpl in Hlen. apply len_zero in Hlen. subst q.
    destruct (ListFolderContinue {| lfc_Cursor := dirListCursor f |} w)
      as [[res|e] w1].
    + simpl. rewrite Hq.
      destruct (sendAll (Entries res) (Some [])) as [q'| | |] eqn:Hs;
        simpl; try discriminate.
      destruct (sendAll_some _ _ _ Hs) as (l & -> & Hl).
      intros H. inversion H; subst.
      split; [intros _; simpl; eauto|].
      split; [simpl; auto|unfold sameOutsidePager; simpl; auto 10].
    + intros H. inversion H; subst.
      split; [exact Hready|].
      split; [rewrite Hq; simpl; auto|unfold sameOutsidePager; simpl; auto 10].
Qed.

Lemma drain_queue_shrinks (count : Z) (queue : list FileInfo) :
  forall lst, len (snd (drain count lst queue)) <= len queue.
Proof.
  induction queue as [|x queue IH]; intros lst; simpl; [lia|].
  destruct (len lst <? count); simpl; [|lia].
  specialize (IH (lst ++ [x])).
  change (len (x :: queue)) with (len ([x] ++ queue)).
  rewrite len_app. change (len [x]) with 1. lia.
Qed.

Lemma drainChan_keeps_pager (count : Z) (lst lst1 : list FileInfo)
  (f f2 : File Stream) :
  drainChan count lst f = (lst1, f2) ->
  (pagerReady f -> pagerReady f2) /\
  chanLen (dirList f2) <= chanLen (dirList f) /\
  sameOutsidePager f f2.
Proof.
  unfold drainChan. destruct (dirList f) as [q|] eqn:Hq.
  - pose proof (drain_queue_shrinks count q lst) as Hs.
    destruct (drain count lst q) as [a b]. intros H. inversion H; subst.
    split; [intros _ _; simpl; eauto|].
    split; [exact Hs|unfold sameOutsidePager; simpl; auto 10].
  - intros H. inversion H; subst. rewrite Hq.
    split; [auto|]. split; [simpl; lia|unfold sameOutsidePager; simpl; auto 10].
Qed.

Lemma Readdir_loop_keeps_pager (fuel : nat) (count : Z) :
  forall (lst : list FileInfo) (f f' : File Stream) (w w' : World)
         (r : list FileInfo * option error),
    pagerReady f ->
    chanLen (dirList f) <= dirListingMaxLimit ->
    Readdir_loop fuel count lst f w = Returns (r, f', w') ->
    pagerReady f' /\ chanLen (dirList f') <= dirListingMaxLimit /\
    sameOutsidePager f f'.
Proof.
  induction fuel as [|fuel IH]; intros lst f f' w w' r Hready Hlen H;
    simpl in H; [discriminate|].
  destruct ((len lst <? count) && negb (dirListDone f)).
  - destruct (Z.eqb_spec (chanLen (dirList f)) 0) as [Hz|Hz].
    + destruct (_readDir f w) as [[[err f1] w1]| | |] eqn:Hrd;
        simpl in H; try discriminate.
      destruct (_readDir_keeps_pager f f1 w w1 err Hready Hz Hrd)
        as (P1 & P2 & P3).
      destruct err as [e|]; [inversion H; subst; auto|].
      destruct (drainChan count lst f1) as [lst1 f2] eqn:Hd.
      destruct (drainChan_keeps_pager _ _ _ _ _ Hd) as (D1 & D2 & D3).
      destruct (IH lst1 f2 f' w1 w' r (D1 P1) ltac:(lia) H)
        as (Q1 & Q2 & Q3).
      split; [exact Q1|]. split; [exact Q2|].
      eapply sameOutsidePager_trans; [exact P3|].
      eapply sameOutsidePager_trans; [exact D3|exact Q3].
    + simpl in H.
      destruct (drainChan count lst f) as [lst1 f2] eqn:Hd.
      destruct (drainChan_keeps_pager _ _ _ _ _ Hd) as (D1 & D2 & D3).
      destruct (IH lst1 f2 f' w w' r (D1 Hready) ltac:(lia) H)
        as (Q1 & Q2 & Q3).
      split; [exact Q1|]. split; [exact Q2|].
      eapply sameOutsidePager_trans; [exact D3|exact Q3].
  - inversion H; subst.
    split; [exact Hready|]. split; [exact Hlen|apply sameOutsidePager_refl].
Qed.

(** X25: [Readdir] keeps the pager well formed and touches nothing else:
    after any return (with or without error, any [count]) the channel
    exists if a cursor is stored and holds at most [dirListingMaxLimit]
    entries, and the path, both streams, the read offset and the cached
    metadata are as before. *)
Theorem Readdir_keeps_channel_bounded
  (fuel : nat) (count : Z) (f f' : File Stream) (w w' : World)
  (r : list FileInfo * option error) :
  pagerReady f ->
  chanLen (dirList f) <= dirListingMaxLimit ->
  Readdir fuel count f w = Returns (r, f', w') ->
  pagerReady f' /\ chanLen (dirList f') <= dirListingMaxLimit /\
  sameOutsidePager f f'.
Proof.
  intros Hready Hlen H. destruct (Z.leb_spec count 0) as [Hc|Hc].
  - unfold Readdir in H. destruct (Z.leb_spec count 0); [|lia].
    destruct (_readDirAll fuel f w) as [[r0 w0]| | |]; simpl in H;
      try discriminate.
    inversion H; subst.
    split; [exact Hready|]. split; [exact Hlen|apply sameOutsidePager_refl].
  - apply Readdir_returns_allocated in H; [|exact Hc].
    apply (Readdir_loop_keeps_pager fuel count [] f f' w w' r);
      assumption.
Qed.

End Handle.

Arguments Read {Stream} stream_Read p f.
Arguments openReadStream {World Stream} Download startAt f w.
Arguments seekTarget {Stream} offset whence f.
Arguments seekRead {World Stream} stream_Close Download offset whence f w.
Arguments Seek {World Stream} stream_Close Download offset whence f w.
Arguments ReadAt {World Stream} stream_Read stream_Close Download p off f w.
Arguments Write {Stream} p f.
Arguments WriteAt {World Stream} stream_Close Download p off f w.
Arguments Truncate {Stream} size f.
Arguments Stat {World Stream} fs_stat f w.
Arguments openWriteStream {Stream} f.
Arguments uploadTask {World Stream} Upload f w.
Arguments Close {World Stream} stream_Close Upload f running w.
Arguments writeSession {World Stream} stream_Close Upload evs f w.
Arguments _readDirAll {World Stream} ListFolder ListFolderContinue fuel f w.
Arguments _readDir {World Stream} ListFolder ListFolderContinue f w.
Arguments Readdir {World Stream} ListFolder ListFolderContinue sliceAllocates
  fuel count f w.
Arguments listingPages {World} ListFolder ListFolderContinue path w pages w'.
Arguments pagesFrom {World} ListFolder ListFolderContinue fs0 path _ _ _ _.
Arguments pagerReady {Stream} f.

Arguments Readdirnames {World Stream} ListFolder ListFolderContinue
  sliceAllocates fuel n f w.
Arguments readCalls {Stream} stream_Read ps f.
Arguments WriteString {Stream} s f.
Arguments fetchPage {World} ListFolder ListFolderContinue fs0 path cursor w.
Arguments sameOutsidePager {Stream} f f'.

(** ** The theorems on the in-memory remote *)

Lemma not_supported_operations_witness :
  Truncate 0 (Mem.reader 0 false) = Some ErrNotSupported /\
  Seek Mem.stream_Close Mem.Download 3 SeekStart Mem.writer Mem.world
  = Returns ((0, Some ErrNotSupported), Mem.writer, Mem.world) /\
  WriteAt Mem.stream_Close Mem.Download Mem.alphabet 7 Mem.writer Mem.world
  = Returns ((0, Some ErrNotSupported), Mem.writer, Mem.world).
Proof.
  apply (not_supported_operations _ _ Mem.stream_Close Mem.Download
           (Mem.reader 0 false) Mem.writer newPipe 0 3 SeekStart 7
           Mem.alphabet Mem.world).
  reflexivity.
Defined.

Lemma openWriteStream_already_opened_witness :
  openWriteStream Mem.writer = (Some ErrAlreadyOpened, Mem.writer, false) /\
  exists g',
    openWriteStream (Mem.reader 0 false) = (None, g', true) /\
    cachedInfo g' = None /\
    streamWrite g' = Some newPipe /\
    openWriteStream g' = (Some ErrAlreadyOpened, g', false).
Proof.
  apply (openWriteStream_already_opened _ Mem.writer (Mem.reader 0 false)
           newPipe); reflexivity.
Defined.

Lemma negative_seek_then_read_panics_witness :
  Seek Mem.stream_Close Mem.Download (-1) SeekCurrent (Mem.reader 0 false)
    Mem.world
  = Returns ((-1, Some ErrInvalidSeek),
             set_streamRead None (Mem.reader 0 false), Mem.world) /\
  streamRead (set_streamRead None (Mem.reader 0 false)) = None /\
  Read Mem.stream_Read (Mem.buffer 4)
    (set_streamRead None (Mem.reader 0 false)) = Panics /\
  Seek Mem.stream_Close Mem.Download (-1) SeekCurrent
    (set_streamRead None (Mem.reader 0 false)) Mem.world
  = Returns ((0, Some ErrFileClosed),
             set_streamRead None (Mem.reader 0 false), Mem.world).
Proof.
  eapply (negative_seek_then_read_panics _ _ Mem.stream_Read
            Mem.stream_Close Mem.Download (Mem.reader 0 false));
    [reflexivity|reflexivity|reflexivity|reflexivity|lia].
Defined.

Lemma seek_start_then_read_witness :
  exists f1 w1,
    Seek Mem.stream_Close Mem.Download 5 SeekStart (Mem.reader 0 false)
      Mem.world = Returns ((5, None), f1, w1) /\
    streamReadOffset f1 = 5 /\
    exists n' err' f2,
      Read Mem.stream_Read (Mem.buffer 4) f1
      = Returns ((list_byte_of_string "fghi", n', err'), f2).
Proof.
  edestruct (seek_start_then_read _ _ Mem.stream_Read Mem.stream_Close
               Mem.Download (Mem.reader 0 false) (Mem.body 0 false)
               (Mem.closedBody 0 false) (Mem.body 5 false)
               5 Mem.world (Mem.logDownload (downloadRequest "/letters" 5)
                              Mem.world) (Mem.buffer 4))
    as (f1 & H1 & _ & H3 & H4);
    [reflexivity|reflexivity|reflexivity|lia|reflexivity|].
  exists f1. eexists. split; [exact H1|]. split; [exact H3|].
  destruct H4 as (n' & err' & f2 & H & _). eauto.
Defined.

Lemma seek_end_subtracts_witness :
  exists f' f2,
    Seek Mem.stream_Close Mem.Download 5 SeekEnd (Mem.reader 0 false)
      Mem.world
    = Returns ((21, None), f',
               Mem.logDownload
                 {| dl_Path := "/letters";
                    dl_ExtraHeaders := [("Range", "bytes=21-")%string] |}
                 Mem.world) /\
    streamReadOffset f' = 21 /\
    Read Mem.stream_Read (Mem.buffer 4) f'
    = Returns ((list_byte_of_string "vwxy", 4, None), f2).
Proof.
  destruct (seek_end_subtracts _ _ Mem.stream_Read Mem.stream_Close
              Mem.Download (Mem.reader 0 false) (Mem.body 0 false)
              (Mem.closedBody 0 false) Mem.lettersInfo 26 5 Mem.world
              eq_refl eq_refl eq_refl eq_refl eq_refl)
    as (_ & _ & _ & _ & H).
  destruct H as (err & f' & H1 & _ & H3 & H4 & H5);
    [vm_compute; discriminate|].
  assert (Herr : err = None) by (apply H4; reflexivity). subst err.
  destruct (H5 (Mem.buffer 4) (Mem.body 21 false) eq_refl)
    as (n' & err' & f2 & HR & E1 & _ & E3).
  assert (Herr' : err' = None) by (apply E1; reflexivity). subst err'.
  assert (Hn : n' = 4) by (apply E3; left; reflexivity). subst n'.
  exists f', f2. split; [exact H1|]. split; [exact H3|exact HR].
Defined.

Lemma read_eof_keeps_offset_witness :
  exists p' s',
    Read Mem.stream_Read (Mem.buffer 30) (Mem.reader 20 true)
    = Returns ((p', 6, Some EOF),
               set_streamRead (Some s') (Mem.reader 20 true)) /\
    streamReadOffset (set_streamRead (Some s') (Mem.reader 20 true)) = 20.
Proof.
  edestruct (read_eof_keeps_offset Mem.World _ Mem.stream_Read
               Mem.stream_Close Mem.Download (Mem.reader 20 true)
               (Mem.body 20 true)
               (snd (Mem.stream_Read (Mem.body 20 true) (Mem.buffer 30)))
               (Mem.buffer 30)
               (fst (fst (fst (Mem.stream_Read (Mem.body 20 true)
                                 (Mem.buffer 30)))))
               6 EOF)
    as (H1 & H2 & _);
    [reflexivity|reflexivity|reflexivity|lia|].
  do 2 eexists. split; [exact H1|exact H2].
Defined.

Lemma readAt_is_current_relative_witness :
  exists p' f1 w1,
    ReadAt Mem.stream_Read Mem.stream_Close Mem.Download (Mem.buffer 5) 3
      (Mem.reader 10 false) Mem.world = Returns ((p', 5, None), f1, w1) /\
    streamReadOffset f1 = add64 (add64 10 3) 5.
Proof.
  edestruct (readAt_is_current_relative _ _ Mem.stream_Read Mem.stream_Close
               Mem.Download (Mem.reader 10 false) (Mem.body 10 false)
               (Mem.closedBody 10 false) (Mem.body 13 false)
               (snd (Mem.stream_Read (Mem.body 13 false) (Mem.buffer 5)))
               3 5 Mem.world
               (Mem.logDownload (downloadRequest "/letters" 13) Mem.world)
               (Mem.buffer 5)
               (fst (fst (fst (Mem.stream_Read (Mem.body 13 false)
                                 (Mem.buffer 5))))))
    as (f1 & H1 & H2 & _);
    [reflexivity|reflexivity|reflexivity|vm_compute; discriminate
    |reflexivity|reflexivity|].
  do 3 eexists. split; [exact H1|exact H2].
Defined.

(** The claim C9 as stated fails here: the handle reads at byte 10, and
    two successive [ReadAt] of 5 bytes with [off = -5] both download from
    byte 5 and deliver the same bytes. *)
Lemma readAt_twice_same_position :
  exists f1 w1 f2 w2,
    ReadAt Mem.stream_Read Mem.stream_Close Mem.Download (Mem.buffer 5) (-5)
      (Mem.reader 10 false) Mem.world
    = Returns ((list_byte_of_string "fghij", 5, None), f1, w1) /\
    ReadAt Mem.stream_Read Mem.stream_Close Mem.Download (Mem.buffer 5) (-5)
      f1 w1
    = Returns ((list_byte_of_string "fghij", 5, None), f2, w2) /\
    seekTarget (-5) SeekCurrent (Mem.reader 10 false) = Returns 5 /\
    seekTarget (-5) SeekCurrent f1 = Returns 5 /\
    Mem.downloads w2
    = [downloadRequest "/letters" 5; downloadRequest "/letters" 5].
Proof.
  do 4 eexists.
  split; [vm_compute; reflexivity|].
  split; [vm_compute; reflexivity|].
  split; [reflexivity|]. split; reflexivity.
Qed.

Lemma failed_upload_sets_cached_metadata_witness :
  exists m f' w',
    writeSession Mem.stream_Close Mem.Upload
      [CallWrite Mem.alphabet; UploadReturns; CallWrite Mem.alphabet]
      (newFile Mem.drive "/new") (Mem.failing (Transport "boom"))
    = Returns (Some (Transport "boom"), f', w') /\
    cachedInfo f' = Some (newFileInfo (FileMeta m)) /\
    Stat Mem.fs_stat f' w'
    = ((Some (newFileInfo (FileMeta m)), None), f', w').
Proof.
  edestruct (failed_upload_sets_cached_metadata _ _ Mem.stream_Close
               Mem.Upload Mem.fs_stat (Transport "boom")
               (Mem.failing (Transport "boom"))
               (fun _ _ => eq_refl) (newFile Mem.drive "/new")
               [CallWrite Mem.alphabet; UploadReturns;
                CallWrite Mem.alphabet])
    as (m & f' & w' & H1 & _ & H3 & H4); [reflexivity|reflexivity|].
  exists m, f', w'. auto.
Defined.

Lemma Readdir_all_pages_witness :
  exists lst,
    Readdir Mem.ListFolder Mem.ListFolderContinue Mem.sliceAllocates 3 0
      (newFile (Stream := Mem.Stream) Mem.drive "/") Mem.world
    = Returns ((lst, None), newFile Mem.drive "/", Mem.world) /\
    lst = [newFileInfo (Mem.entry "a"); newFileInfo (Mem.entry "b");
           newFileInfo (Mem.entry "c");
           newFileInfo (FolderMeta (Some {| folder_Name := "d" |}));
           newFileInfo (Mem.entry "e")] /\
    map FileInfoM.Sys lst
    = [Mem.entry "a"; Mem.entry "b"; Mem.entry "c";
       FolderMeta (Some {| folder_Name := "d" |}); Mem.entry "e"].
Proof.
  apply (Readdir_all_pages _ _ Mem.ListFolder Mem.ListFolderContinue
           Mem.sliceAllocates (newFile Mem.drive "/") 0 Mem.world Mem.world
           Mem.threePages).
  - lia.
  - do 3 eexists. split; [reflexivity|]. split; [|reflexivity].
    eapply continue_next; [reflexivity|reflexivity|].
    eapply continue_next; [reflexivity|reflexivity|].
    apply continue_stop. reflexivity.
  - repeat constructor; intros _; discriminate.
  - simpl. lia.
Defined.

Lemma Readdir_short_only_when_done_witness :
  (exists f',
     Readdir Mem.ListFolder Mem.ListFolderContinue Mem.sliceAllocates 5 4
       (newFile (Stream := Mem.Stream) Mem.drive "/") Mem.world
     = Returns (([newFileInfo (Mem.entry "a"); newFileInfo (Mem.entry "b");
                  newFileInfo (Mem.entry "c");
                  newFileInfo (FolderMeta (Some {| folder_Name := "d" |}))],
                 None), f', Mem.world) /\
     chanQueue (dirList f') = [newFileInfo (Mem.entry "e")] /\
     dirListDone f' = true) /\
  (exists fuel lst f' w' k,
     Readdir Mem.ListFolder Mem.ListFolderContinue Mem.sliceAllocates fuel 4
       (newFile (Stream := Mem.Stream) Mem.drive "/") Mem.world
     = Returns ((lst, None), f', w') /\
     (len lst = 4 \/ (len lst < 4 /\ dirListDone f' = true)) /\
     map FileInfoM.Sys (lst ++ chanQueue (dirList f'))
     = List.concat (map Entries (firstn k Mem.threePages))) /\
  (exists f',
     Readdir Mem.ListFolder Mem.ListFolderContinue Mem.sliceAllocates 5 9
       (newFile (Stream := Mem.Stream) Mem.drive "/") Mem.world
     = Returns (([newFileInfo (Mem.entry "a"); newFileInfo (Mem.entry "b");
                  newFileInfo (Mem.entry "c");
                  newFileInfo (FolderMeta (Some {| folder_Name := "d" |}));
                  newFileInfo (Mem.entry "e")], None), f', Mem.world) /\
     dirListDone f' = true) /\
  Readdir Mem.ListFolder Mem.ListFolderContinue Mem.sliceAllocates 5 (2 ^ 62)
    (newFile (Stream := Mem.Stream) Mem.drive "/") Mem.world
  = Panics.
Proof.
  destruct (Readdir_short_only_when_done _ _ Mem.ListFolder
              Mem.ListFolderContinue Mem.sliceAllocates
              (newFile (Stream := Mem.Stream) Mem.drive "/") 4 Mem.world
              eq_refl)
    as (S4 & _ & _ & F4 & _).
  destruct (Readdir_short_only_when_done _ _ Mem.ListFolder
              Mem.ListFolderContinue Mem.sliceAllocates
              (newFile (Stream := Mem.Stream) Mem.drive "/") 9 Mem.world
              eq_refl)
    as (S9 & _).
  destruct (Readdir_short_only_when_done _ _ Mem.ListFolder
              Mem.ListFolderContinue Mem.sliceAllocates
              (newFile (Stream := Mem.Stream) Mem.drive "/") (2 ^ 62)
              Mem.world eq_refl)
    as (_ & P & _).
  split; [|split; [|split]].
  - eexists. split; [vm_compute; reflexivity|]. split; reflexivity.
  - assert (Hready : pagerReady (newFile (Stream := Mem.Stream)
                                     Mem.drive "/"))
      by (intros H; exfalso; apply H; reflexivity).
    assert (Hpages : pagesFrom Mem.ListFolder Mem.ListFolderContinue
                       Mem.drive "/" "" Mem.world Mem.threePages Mem.world).
    { eapply pages_more; [reflexivity|reflexivity|].
      eapply pages_more; [reflexivity|reflexivity|].
      apply pages_last; reflexivity. }
    assert (Hfit : Forall fitsChannel Mem.threePages)
      by (repeat constructor; unfold fitsChannel; simpl;
          unfold len, dirListingMaxLimit; simpl; lia).
    destruct (F4 eq_refl eq_refl Hready Mem.threePages Mem.world Hpages
                Hfit)
      as (fuel & lst & f' & w' & k & H1 & H2 & _ & _ & H5 & _).
    exists fuel, lst, f', w', k. auto.
  - destruct (S9 5%nat
                [newFileInfo (Mem.entry "a"); newFileInfo (Mem.entry "b");
                 newFileInfo (Mem.entry "c");
                 newFileInfo (FolderMeta (Some {| folder_Name := "d" |}));
                 newFileInfo (Mem.entry "e")]
                (set_dirListDone true
                   (set_dirListCursor "c3"
                      (set_dirList (Some []) (newFile Mem.drive "/"))))
                Mem.world eq_refl) as [H|[_ H]].
    + vm_compute in H. discriminate H.
    + eexists. split; [vm_compute; reflexivity|exact H].
  - apply P. reflexivity.
Defined.

(** ** The further properties on the in-memory remote *)

Lemma Read_result_shapes_witness :
  exists p' f',
    Read Mem.stream_Read (Mem.buffer 4) (Mem.reader 20 false)
    = Returns ((p', 4, None), f') /\
    streamReadOffset f' = add64 20 4.
Proof.
  do 2 eexists. split; [reflexivity|].
  destruct (Read_result_shapes _ Mem.stream_Read (Mem.reader 20 false)
              _ (Mem.buffer 4) _ 4 None eq_refl)
    as [[_ H]|[[H _]|(c & H & _)]]; [exact H|discriminate H|discriminate H].
Defined.

Lemma readCalls_offset_witness :
  exists f',
    readCalls Mem.stream_Read [Mem.buffer 4; Mem.buffer 3]
      (Mem.reader 0 false) = Returns (7, f') /\
    streamReadOffset f' = wrap64 (0 + 7).
Proof.
  eexists. split; [reflexivity|].
  apply (readCalls_offset _ Mem.stream_Read [Mem.buffer 4; Mem.buffer 3]
           (Mem.reader 0 false)).
  - unfold in_int64. simpl. lia.
  - reflexivity.
Defined.

Lemma Seek_close_failure_witness :
  Seek Mem.failingClose Mem.Download (-5) SeekStart (Mem.reader 0 false)
    Mem.world
  = Returns ((0, Some (Errorf "couldn't close previous stream"
                         (Transport "reset"))),
             set_streamRead (Some (Mem.body 0 false)) (Mem.reader 0 false),
             Mem.world).
Proof.
  apply (Seek_close_failure _ _ Mem.failingClose Mem.Download
           (Mem.reader 0 false) (Mem.body 0 false) (Mem.body 0 false)
           (Transport "reset") (-5) SeekStart (-5) Mem.world);
    reflexivity.
Defined.

Lemma Seek_unknown_whence_rewinds_witness :
  exists err f',
    Seek Mem.stream_Close Mem.Download 9 7 (Mem.reader 10 false) Mem.world
    = Returns ((0, err), f',
               snd (Mem.Download {| dl_Path := "/letters";
                                    dl_ExtraHeaders := [] |} Mem.world)) /\
    streamReadOffset f' = 0.
Proof.
  destruct (Seek_unknown_whence_rewinds _ _ Mem.stream_Close Mem.Download
              (Mem.reader 10 false) (Mem.body 10 false)
              (Mem.closedBody 10 false) 9 7 Mem.world)
    as (err & f' & H1 & H2 & _);
    try reflexivity; try (unfold SeekStart, SeekCurrent, SeekEnd; lia).
  exists err, f'. split; [exact H1|exact H2].
Defined.

Lemma Seek_download_failure_witness :
  exists f',
    Seek Mem.stream_Close Mem.Download 5 SeekStart (Mem.reader 0 false)
      Mem.empty
    = Returns ((5, Some (Errorf "couldn't download file"
                           (Transport "path/not_found"))), f',
               Mem.logDownload (downloadRequest "/letters" 5) Mem.empty) /\
    streamReadOffset f' = 5 /\
    streamRead f' = None.
Proof.
  destruct (Seek_download_failure _ _ Mem.stream_Close Mem.Download
              (Mem.reader 0 false) (Mem.body 0 false)
              (Mem.closedBody 0 false) None (Transport "path/not_found")
              5 SeekStart 5 Mem.empty
              (Mem.logDownload (downloadRequest "/letters" 5) Mem.empty))
    as (f' & H1 & H2 & H3 & _); try reflexivity; try lia.
  exists f'. auto.
Defined.

Lemma ReadAt_seek_errors_witness :
  ReadAt Mem.stream_Read Mem.stream_Close Mem.Download (Mem.buffer 4) (-1)
    (newFile Mem.drive "/letters") Mem.world
  = Returns ((Mem.buffer 4, 0, Some ErrFileClosed),
             newFile Mem.drive "/letters", Mem.world) /\
  ReadAt Mem.stream_Read Mem.stream_Close Mem.Download (Mem.buffer 4) (-1)
    Mem.writer Mem.world
  = Returns ((Mem.buffer 4, 0, Some ErrNotSupported), Mem.writer, Mem.world)
  /\
  ReadAt Mem.stream_Read Mem.stream_Close Mem.Download (Mem.buffer 4) (-1)
    (Mem.reader 0 false) Mem.world
  = Returns ((Mem.buffer 4, 0, Some ErrInvalidSeek),
             set_streamRead None (Mem.reader 0 false), Mem.world).
Proof.
  apply (ReadAt_seek_errors _ _ Mem.stream_Read Mem.stream_Close
           Mem.Download (newFile Mem.drive "/letters") Mem.writer
           (Mem.reader 0 false) newPipe (Mem.body 0 false)
           (Mem.closedBody 0 false));
    try reflexivity.
Defined.

Lemma WriteAt_on_read_handle_witness :
  WriteAt Mem.stream_Close Mem.Download Mem.alphabet (-1)
    (Mem.reader 0 false) Mem.world
  = Returns ((0, Some ErrInvalidSeek),
             set_streamRead None (Mem.reader 0 false), Mem.world) /\
  WriteAt Mem.stream_Close Mem.Download Mem.alphabet 3 (Mem.reader 0 false)
    Mem.empty
  = Returns ((0, Some (Errorf "couldn't download file"
                         (Transport "path/not_found"))),
             set_streamRead None
               (set_streamReadOffset 3
                  (set_streamRead None (Mem.reader 0 false))),
             Mem.logDownload
               {| dl_Path := "/letters";
                  dl_ExtraHeaders := [("Range", "bytes=3-")%string] |}
               Mem.empty) /\
  WriteAt Mem.stream_Close Mem.Download Mem.alphabet 3 (Mem.reader 0 false)
    Mem.world = Panics /\
  Seek Mem.stream_Close Mem.Download 3 SeekCurrent (Mem.reader 0 false)
    Mem.world
  = Returns ((3, None),
             set_streamRead (Some (Mem.body 3 false))
               (set_streamReadOffset 3
                  (set_streamRead None (Mem.reader 0 false))),
             Mem.logDownload
               {| dl_Path := "/letters";
                  dl_ExtraHeaders := [("Range", "bytes=3-")%string] |}
               Mem.world) /\
  WriteAt Mem.stream_Close Mem.Download Mem.alphabet 3
    (newFile Mem.drive "/letters") Mem.world
  = Returns ((0, Some ErrFileClosed), newFile Mem.drive "/letters",
             Mem.world).
Proof.
  destruct (WriteAt_on_read_handle _ _ Mem.stream_Close Mem.Download
              (Mem.reader 0 false) (newFile Mem.drive "/letters")
              (Mem.body 0 false) (Mem.closedBody 0 false)
              Mem.alphabet (-1) Mem.world
              eq_refl eq_refl eq_refl eq_refl eq_refl)
    as (Hneg & _).
  destruct (WriteAt_on_read_handle _ _ Mem.stream_Close Mem.Download
              (Mem.reader 0 false) (newFile Mem.drive "/letters")
              (Mem.body 0 false) (Mem.closedBody 0 false)
              Mem.alphabet 3 Mem.empty
              eq_refl eq_refl eq_refl eq_refl eq_refl)
    as (_ & Hfail & _).
  destruct (WriteAt_on_read_handle _ _ Mem.stream_Close Mem.Download
              (Mem.reader 0 false) (newFile Mem.drive "/letters")
              (Mem.body 0 false) (Mem.closedBody 0 false)
              Mem.alphabet 3 Mem.world
              eq_refl eq_refl eq_refl eq_refl eq_refl)
    as (_ & _ & Hok & Hclosed).
  split; [apply Hneg; reflexivity|].
  split.
  { apply (Hfail ltac:(vm_compute; discriminate) None
             (Transport "path/not_found")
             (Mem.logDownload (downloadRequest "/letters" 3) Mem.empty)).
    reflexivity. }
  destruct (Hok ltac:(vm_compute; discriminate) (Some (Mem.body 3 false))
              (Mem.logDownload (downloadRequest "/letters" 3) Mem.world)
              eq_refl) as [Hp Hs].
  split; [exact Hp|]. split; [exact Hs|exact Hclosed].
Defined.

Lemma successful_write_session_witness :
  exists f2,
    writeSession Mem.stream_Close Mem.Upload
      (map CallWrite [Mem.alphabet; Mem.alphabet])
      (newFile Mem.drive "/new") Mem.world
    = Returns (None, f2,
               snd (Mem.Upload (uploadRequest "/new")
                      (Mem.alphabet ++ Mem.alphabet) Mem.world)) /\
    cachedInfo f2
    = Some (newFileInfo
              (FileMeta (Some {| file_Name := "/new"; file_Size := 52;
                                 file_ClientModified := 0 |}))).
Proof.
  destruct (successful_write_session _ _ Mem.stream_Close Mem.Upload
              Mem.fs_stat [Mem.alphabet; Mem.alphabet]
              (newFile Mem.drive "/new") Mem.world
              (snd (Mem.Upload (uploadRequest "/new")
                      (Mem.alphabet ++ Mem.alphabet) Mem.world))
              (Some {| file_Name := "/new"; file_Size := 52;
                       file_ClientModified := 0 |})
              eq_refl eq_refl eq_refl)
    as (f2 & H1 & _ & H3 & _).
  exists f2. split; [exact H1|exact H3].
Defined.

Lemma Stat_after_failed_upload_panics_witness :
  exists f2 fi w',
    writeSession Mem.stream_Close Mem.Upload
      [CallWrite Mem.alphabet; UploadReturns]
      (newFile Mem.drive "/new") (Mem.failing (Transport "boom"))
    = Returns (Some (Transport "boom"), f2, w') /\
    Stat Mem.fs_stat f2 w' = ((Some fi, None), f2, w') /\
    FileInfoM.Size fi = Panics.
Proof.
  destruct (Stat_after_failed_upload_panics _ _ Mem.stream_Close Mem.Upload
              Mem.fs_stat [CallWrite Mem.alphabet; UploadReturns]
              (newFile Mem.drive "/new") (Mem.failing (Transport "boom"))
              (Mem.failing (Transport "boom")) (Transport "boom")
              eq_refl eq_refl eq_refl)
    as (f2 & fi & H1 & H2 & _ & _ & H5 & _).
  exists f2, fi, (Mem.failing (Transport "boom")). auto.
Defined.

Lemma writes_after_failed_upload_witness :
  exists f1,
    uploadTask Mem.Upload Mem.writer (Mem.failing (Transport "boom"))
    = Returns (f1, Mem.failing (Transport "boom")) /\
    streamWriteErr f1 = Some (Transport "boom") /\
    Write Mem.alphabet f1 = Returns ((0, Some ErrClosedPipe), f1).
Proof.
  destruct (writes_after_failed_upload _ _ Mem.Upload Mem.writer newPipe
              (Mem.failing (Transport "boom"))
              (Mem.failing (Transport "boom")) None (Transport "boom")
              eq_refl eq_refl eq_refl)
    as (f1 & H1 & H2 & H3 & _).
  exists f1. auto.
Defined.

Lemma Close_twice_witness :
  Close Mem.stream_Close Mem.Upload
    (set_streamRead None (Mem.reader 0 false)) false Mem.world
  = Returns (None, set_streamRead None (Mem.reader 0 false), false,
             Mem.world).
Proof.
  apply (Close_twice _ _ Mem.stream_Close Mem.Upload (Mem.reader 0 false)
           (set_streamRead None (Mem.reader 0 false)) false false
           Mem.world Mem.world None).
  - right. reflexivity.
  - reflexivity.
Defined.

Lemma Stat_caches_witness :
  Stat Mem.fs_stat
    (set_cachedInfo (Some Mem.lettersInfo)
       (newFile (Stream := Mem.Stream) Mem.drive "/letters")) Mem.empty
  = ((Some Mem.lettersInfo, None),
     set_cachedInfo (Some Mem.lettersInfo) (newFile Mem.drive "/letters"),
     Mem.empty).
Proof.
  destruct (Stat_caches _ _ Mem.fs_stat
              (newFile (Stream := Mem.Stream) Mem.drive "/letters")
              (set_cachedInfo (Some Mem.lettersInfo)
                 (newFile Mem.drive "/letters"))
              Mem.world Mem.world (Some Mem.lettersInfo) None eq_refl)
    as [_ H].
  exact (H Mem.lettersInfo eq_refl Mem.empty).
Defined.


Lemma Readdir_after_done_witness :
  Readdir Mem.ListFolder Mem.ListFolderContinue Mem.sliceAllocates 1 2
    Mem.leftover Mem.world
  = Returns (([], None), Mem.leftover, Mem.world).
Proof.
  apply (Readdir_after_done _ _ Mem.ListFolder Mem.ListFolderContinue
           Mem.sliceAllocates Mem.leftover 2 Mem.world 0);
    [lia|reflexivity|reflexivity].
Defined.

Lemma Readdir_blocks_on_large_page_witness :
  _readDir Mem.ListFolder Mem.ListFolderContinue
    (newFile (Stream := Mem.Stream) Mem.drive "/") Mem.bigWorld = Blocks /\
  Readdir Mem.ListFolder Mem.ListFolderContinue Mem.sliceAllocates 1 2
    (newFile (Stream := Mem.Stream) Mem.drive "/") Mem.bigWorld = Blocks.
Proof.
  destruct (Readdir_blocks_on_large_page _ _ Mem.ListFolder
              Mem.ListFolderContinue Mem.sliceAllocates
              (newFile (Stream := Mem.Stream) Mem.drive "/") 2 Mem.bigWorld
              Mem.bigWorld Mem.bigPage 0 eq_refl eq_refl eq_refl
              (fun H => False_ind _ (H eq_refl)) eq_refl eq_refl)
    as [H1 H2].
  split; [exact H1|exact (H2 eq_refl)].
Defined.

Lemma Readdir_fetch_error_witness :
  exists f',
    Readdir Mem.ListFolder Mem.ListFolderContinue Mem.sliceAllocates 1 2
      (newFile (Stream := Mem.Stream) Mem.drive "/") Mem.empty
    = Returns (([], Some (Errorf "couldn't fetch files list"
                            (Transport "path/not_found"))), f', Mem.empty)
    /\ dirListCursor f' = ""%string.
Proof.
  destruct (Readdir_fetch_error _ _ Mem.ListFolder Mem.ListFolderContinue
              Mem.sliceAllocates
              (newFile (Stream := Mem.Stream) Mem.drive "/") 2 Mem.empty
              Mem.empty (Transport "path/not_found") 0)
    as (f' & H1 & _ & H3 & _); try reflexivity; try lia.
  exists f'. split; [exact H1|exact H3].
Defined.

Lemma Readdir_all_error_witness :
  Readdir Mem.ListFolder Mem.ListFolderContinue Mem.sliceAllocates 2 0
    (newFile (Stream := Mem.Stream) Mem.drive "/") Mem.truncated
  = Returns (([], Some (Transport "reset")), newFile Mem.drive "/",
             Mem.truncated).
Proof.
  apply (Readdir_all_error _ _ Mem.ListFolder Mem.ListFolderContinue
           Mem.sliceAllocates
           (newFile (Stream := Mem.Stream) Mem.drive "/") 0 Mem.truncated
           Mem.truncated Mem.truncated Mem.firstPage (Transport "reset") 0);
    try reflexivity; try lia.
  discriminate.
Defined.

Lemma Readdir_all_never_returns_witness :
  Readdir Mem.endless Mem.endless Mem.sliceAllocates 1000 0
    (newFile (Stream := Mem.Stream) Mem.drive "/") Mem.world = OutOfFuel.
Proof.
  apply (Readdir_all_never_returns _ _ Mem.endless Mem.endless
           Mem.sliceAllocates).
  - intros arg w0. do 2 eexists. split; reflexivity.
  - intros arg w0. do 2 eexists. split; reflexivity.
  - lia.
Defined.

Lemma Readdir_in_order_witness :
  exists fuel lst f' w' k,
    Readdir Mem.ListFolder Mem.ListFolderContinue Mem.sliceAllocates fuel 4
      (newFile (Stream := Mem.Stream) Mem.drive "/") Mem.world
    = Returns ((lst, None), f', w') /\
    lst ++ chanQueue (dirList f')
    = map newFileInfo
        (List.concat (map Entries (firstn k Mem.threePages))) /\
    map FileInfoM.Sys (lst ++ chanQueue (dirList f'))
    = List.concat (map Entries (firstn k Mem.threePages)).
Proof.
  assert (Hready : pagerReady (newFile (Stream := Mem.Stream)
                                 Mem.drive "/"))
    by (intros H; exfalso; apply H; reflexivity).
  assert (Hpages : pagesFrom Mem.ListFolder Mem.ListFolderContinue
                     Mem.drive "/" "" Mem.world Mem.threePages Mem.world).
  { eapply pages_more; [reflexivity|reflexivity|].
    eapply pages_more; [reflexivity|reflexivity|].
    apply pages_last; reflexivity. }
  assert (Hfit : Forall fitsChannel Mem.threePages)
    by (repeat constructor; unfold fitsChannel; simpl;
        unfold len, dirListingMaxLimit; simpl; lia).
  destruct (Readdir_in_order _ _ Mem.ListFolder Mem.ListFolderContinue
              Mem.sliceAllocates
              (newFile (Stream := Mem.Stream) Mem.drive "/") 4 Mem.world
              Mem.world Mem.threePages eq_refl eq_refl Hready eq_refl
              Hpages Hfit)
    as (fuel & lst & f' & w' & k & H1 & _ & H3 & H4 & _).
  exists fuel, lst, f', w', k.
  split; [exact H1|]. split; [exact H3|exact H4].
Defined.

Lemma Readdirnames_base_names_witness :
  Readdirnames Mem.ListFolder Mem.ListFolderContinue Mem.sliceAllocates 1 0
    (newFile (Stream := Mem.Stream) Mem.drive "/docs") Mem.pathWorld
  = Returns ((["a.txt"; "b"; ""; "c"]%string, None),
             newFile Mem.drive "/docs", Mem.pathWorld) /\
  exists fi,
    Readdir Mem.ListFolder Mem.ListFolderContinue Mem.sliceAllocates 1 0
      (newFile (Stream := Mem.Stream) Mem.drive "/docs") Mem.pathWorld
    = Returns ((fi, None), newFile Mem.drive "/docs", Mem.pathWorld) /\
    Forall2 (fun x nm =>
               exists full,
                 FileInfoM.Name x = Returns full /\ isBaseName full nm)
      fi ["a.txt"; "b"; ""; "c"]%string.
Proof.
  split; [vm_compute; reflexivity|].
  destruct (Readdirnames_base_names _ _ Mem.ListFolder
              Mem.ListFolderContinue Mem.sliceAllocates 1 0
              (newFile (Stream := Mem.Stream) Mem.drive "/docs")
              (newFile Mem.drive "/docs") Mem.pathWorld Mem.pathWorld
              ["a.txt"; "b"; ""; "c"]%string None eq_refl)
    as (fi & H1 & _ & H3).
  exists fi. split; [exact H1|exact (H3 eq_refl)].
Defined.

Lemma downloadRequest_determines_start_witness :
  (dl_ExtraHeaders (downloadRequest "/letters" 5) = [] <-> 5 = 0) /\
  (downloadRequest "/letters" 5 = downloadRequest "/letters" 5 -> 5 = 5).
Proof.
  apply (downloadRequest_determines_start "/letters" 5 5); lia.
Defined.

Lemma Seek_success_witness :
  0 <= 5 /\
  streamReadOffset
    (set_streamRead (Some (Mem.body 5 false))
       (set_streamReadOffset 5 (set_streamRead None (Mem.reader 0 false))))
  = 5 /\
  seekTarget 3 SeekCurrent
    (set_streamRead (Some (Mem.body 5 false))
       (set_streamReadOffset 5 (set_streamRead None (Mem.reader 0 false))))
  = Returns (add64 5 3).
Proof.
  destruct (Seek_success _ _ Mem.stream_Close Mem.Download 5 SeekStart
              (Mem.reader 0 false)
              (set_streamRead (Some (Mem.body 5 false))
                 (set_streamReadOffset 5
                    (set_streamRead None (Mem.reader 0 false))))
              Mem.world
              (Mem.logDownload (downloadRequest "/letters" 5) Mem.world)
              5 eq_refl)
    as (H1 & _ & H3 & _ & _ & H6).
  split; [exact H1|]. split; [exact H3|exact (H6 3)].
Defined.

Lemma Seek_end_without_metadata_panics_witness :
  Seek Mem.stream_Close Mem.Download 0 SeekEnd
    (set_cachedInfo None (Mem.reader 0 false)) Mem.world = Panics.
Proof.
  apply (Seek_end_without_metadata_panics _ _ Mem.stream_Close Mem.Download
           (set_cachedInfo None (Mem.reader 0 false)) (Mem.body 0 false));
    [reflexivity|reflexivity|left; reflexivity].
Defined.

Lemma FileInfo_Size_range_witness :
  in_int64 26 /\
  (FileInfoM.IsDir Mem.lettersInfo = true -> 26 = 0).
Proof.
  destruct (FileInfo_Size_range Mem.lettersInfo 26 eq_refl) as (H1 & H2 & _).
  split; [exact H1|exact H2].
Defined.

Lemma Readdir_keeps_channel_bounded_witness :
  exists f',
    Readdir Mem.ListFolder Mem.ListFolderContinue Mem.sliceAllocates 5 4
      (newFile (Stream := Mem.Stream) Mem.drive "/") Mem.world
    = Returns (([newFileInfo (Mem.entry "a"); newFileInfo (Mem.entry "b");
                 newFileInfo (Mem.entry "c");
                 newFileInfo (FolderMeta (Some {| folder_Name := "d" |}))],
                None), f', Mem.world) /\
    dirList f' = Some [newFileInfo (Mem.entry "e")] /\
    dirListCursor f' = "c3"%string /\
    pagerReady f' /\
    chanLen (dirList f') <= dirListingMaxLimit /\
    sameOutsidePager (newFile Mem.drive "/") f'.
Proof.
  assert (Hrun :
    Readdir Mem.ListFolder Mem.ListFolderContinue Mem.sliceAllocates 5 4
      (newFile (Stream := Mem.Stream) Mem.drive "/") Mem.world
    = Returns (([newFileInfo (Mem.entry "a"); newFileInfo (Mem.entry "b");
                 newFileInfo (Mem.entry "c");
                 newFileInfo (FolderMeta (Some {| folder_Name := "d" |}))],
                None),
               set_dirListDone true
                 (set_dirListCursor "c3"
                    (set_dirList (Some [newFileInfo (Mem.entry "e")])
                       (newFile Mem.drive "/"))),
               Mem.world))
    by (vm_compute; reflexivity).
  destruct (Readdir_keeps_channel_bounded _ _ Mem.ListFolder
              Mem.ListFolderContinue Mem.sliceAllocates 5 4
              (newFile (Stream := Mem.Stream) Mem.drive "/")
              (set_dirListDone true
                 (set_dirListCursor "c3"
                    (set_dirList (Some [newFileInfo (Mem.entry "e")])
                       (newFile Mem.drive "/"))))
              Mem.world Mem.world
              ([newFileInfo (Mem.entry "a"); newFileInfo (Mem.entry "b");
                newFileInfo (Mem.entry "c");
                newFileInfo (FolderMeta (Some {| folder_Name := "d" |}))],
               None)
              (fun H => False_ind _ (H eq_refl))
              ltac:(vm_compute; discriminate) Hrun)
    as (H1 & H2 & H3).
  eexists. split; [exact Hrun|]. split; [reflexivity|].
  split; [reflexivity|]. split; [exact H1|]. split; [exact H2|exact H3].
Defined.
